(** * ProxyStore: the ZeroMQ distributed in-memory connector and its server

    A shallow embedding of [proxystore/connectors/dim/zmqstream.py]:
    the [ZeroMQServer] request handlers, [handle_rpc] and the serving loop,
    and the [ZeroMQConnector] client (construction, [_send_rpcs], the
    user-facing operations, [config]/[from_config], [close]).

    Python objects mutated in place are modelled by explicit state passing;
    a raised exception is a result of its own, and keeps the state the code
    had reached when it was raised. *)

From Stdlib Require Import QArith.
From stdpp Require Import base gmap strings list fin_maps.

Local Open Scope Z_scope.
Local Open Scope string_scope.

(** ** Results and the state-and-exception monad *)

(** The exceptions the module raises or forwards ([Exception] subclasses). *)
Inductive exn : Type :=
  | KeyError (k : string)
  | AttributeError (type_name attr : string)
  | AssertionError (msg : string)
  | TypeError (msg : string)
  | ValueError (msg : string)
  | OSError (msg : string)
  | InvalidStateError
  | ServerTimeoutError
  | RuntimeError (msg : string).

(** What a call does: return a value, raise, or never return (a blocking
    wait that nothing wakes up). *)
Inductive res (A : Type) : Type :=
  | Ok (a : A)
  | Raise (e : exn)
  | Blocks.
Arguments Ok {A} a.
Arguments Raise {A} e.
Arguments Blocks {A}.

Definition M (S A : Type) : Type := S -> res A * S.

Definition ret {S A} (a : A) : M S A := fun s => (Ok a, s).
Definition raise {S A} (e : exn) : M S A := fun s => (Raise e, s).
Definition block {S A} : M S A := fun s => (Blocks, s).

Definition bind {S A B} (m : M S A) (k : A -> M S B) : M S B :=
  fun s =>
    match m s with
    | (Ok a, s') => k a s'
    | (Raise e, s') => (Raise e, s')
    | (Blocks, s') => (Blocks, s')
    end.

Notation "'let*' x ':=' m 'in' k" := (bind m (fun x => k))
  (at level 10, x name, m at level 100, k at level 200).
Notation "m ';;' k" := (bind m (fun _ => k))
  (at level 100, k at level 200, right associativity).

(** [try: m except e: h e]; [h e = None] when no clause matches [e]. *)
Definition try_except {S A} (m : M S A) (h : exn -> option (M S A)) : M S A :=
  fun s =>
    match m s with
    | (Raise e, s') =>
        match h e with
        | Some k => k s'
        | None => (Raise e, s')
        end
    | r => r
    end.

Definition get_state {S} : M S S := fun s => (Ok s, s).
Definition modify {S} (f : S -> S) : M S unit := fun s => (Ok tt, f s).

(** [for x in xs: body x], collecting nothing. *)
Fixpoint for_each {S A} (xs : list A) (body : A -> M S unit) : M S unit :=
  match xs with
  | [] => ret tt
  | x :: xs' => body x;; for_each xs' body
  end.

(** [[f x for x in xs]] with an effectful [f]. *)
Fixpoint map_m {S A B} (f : A -> M S B) (xs : list A) : M S (list B) :=
  match xs with
  | [] => ret []
  | x :: xs' =>
      let* y := f x in
      let* ys := map_m f xs' in
      ret (y :: ys)
  end.

(** ** Keys, requests and responses *)

Definition bytes : Type := list Byte.byte.

(** Modelled from the spec: [proxystore.connectors.dim.models] is not among
    the sources; section 3 gives the fields of [DIMKey], [RPC] and
    [RPCResponse], and the calls in [zmqstream.py] give their names. *)
Record DIMKey : Type := mkDIMKey {
  dim_type : string;
  obj_id : string;
  size : Z;
  peer_host : string;
  peer_port : Z;
  stream_id : option string;
}.

#[global] Instance DIMKey_eq_dec : EqDecision DIMKey.
Proof. solve_decision. Defined.

(** The [operation] is the string the code compares against; where the code
    passes [None] for a key (the connector's [get] and [put] accept it) the
    request carries [None]. *)
Record RPC : Type := mkRPC {
  operation : string;
  key : option DIMKey;
  data : option bytes;
  client_id : option string;
}.

(** Modelled from the spec: [proxystore.streaming.ProxyStream] is not among
    the sources. Section 3 and 4.2: an append-only sequence of object ids,
    one read cursor per client starting at 0, and an [ended] flag. *)
Record ProxyStream : Type := mkProxyStream {
  proxy_uuids : list string;
  cursors : gmap (option string) nat;
  ended : bool;
}.

(** What [ZeroMQServer.data] holds under an id: [bytes | ProxyStream]. *)
Inductive value : Type :=
  | Bytes (b : bytes)
  | Stream (s : ProxyStream).

Record RPCResponse : Type := mkRPCResponse {
  r_operation : string;
  r_key : option DIMKey;
  r_data : option value;
  r_exists : option bool;
  r_exception : option exn;
}.

Module ProxyStream.

(** [ProxyStream()] *)
Definition new : ProxyStream :=
  {| proxy_uuids := []; cursors := ∅; ended := false |}.

(** Modelled from the spec: [append] "adds an identifier to the ordered
    sequence. Fails with InvalidStateError if already ended." *)
Definition append (id : string) : M ProxyStream unit :=
  fun s =>
    if ended s then (Raise InvalidStateError, s)
    else (Ok tt, {| proxy_uuids := proxy_uuids s ++ [id];
                    cursors := cursors s; ended := ended s |}).

(** Modelled from the spec: [end] "marks ended = true; idempotent". *)
Definition end_stream : M ProxyStream unit :=
  fun s => (Ok tt, {| proxy_uuids := proxy_uuids s;
                      cursors := cursors s; ended := true |}).

(** Modelled from the spec: [register_client] "initializes a client's
    cursor at 0 if not already tracked; idempotent". *)
Definition connect (host : option string) : M ProxyStream unit :=
  fun s =>
    match cursors s !! host with
    | Some _ => (Ok tt, s)
    | None => (Ok tt, {| proxy_uuids := proxy_uuids s;
                         cursors := <[host := 0%nat]> (cursors s);
                         ended := ended s |})
    end.

(** Modelled from the spec: [next] "returns the next unread object_id for
    that client, advancing its cursor, or a sentinel when ended and cursor
    has caught up; otherwise the call blocks". The sentinel is [None]. *)
Definition next_data (host : option string) : M ProxyStream (option string) :=
  fun s =>
    let c := default 0%nat (cursors s !! host) in
    match proxy_uuids s !! c with
    | Some id => (Ok (Some id), {| proxy_uuids := proxy_uuids s;
                                   cursors := <[host := S c]> (cursors s);
                                   ended := ended s |})
    | None => if ended s then (Ok None, s) else (Blocks, s)
    end.

End ProxyStream.

(** ** The server *)

Module ZeroMQServer.

(** [self.data: dict[str, bytes | ProxyStream]] *)
Abbreviation store := (gmap string value).

(** [self.data = {}] *)
Definition __init__ : store := ∅.

(** Reading an attribute of the key of a request: [None] has none. *)
Definition attr_of (k : option DIMKey) (attr : string) : M store DIMKey :=
  match k with
  | Some k => ret k
  | None => raise (AttributeError "NoneType" attr)
  end.

(** [self.data[sid]], the subscript that raises [KeyError]. *)
Definition subscript (sid : string) : M store value :=
  fun d =>
    match d !! sid with
    | Some v => (Ok v, d)
    | None => (Raise (KeyError sid), d)
    end.

(** [stream.method(...)] on the object found under [sid]: the stream is
    changed in place, so the store sees the change; [bytes] has none of
    the stream's methods. *)
Definition call_method {A} (sid : string) (v : value) (name : string)
    (method : M ProxyStream A) : M store A :=
  match v with
  | Bytes _ => raise (AttributeError "bytes" name)
  | Stream _ =>
      fun d =>
        match d !! sid with
        | Some (Stream s) =>
            let '(r, s') := method s in (r, <[sid := Stream s']> d)
        | _ => (Raise (AttributeError "bytes" name), d)
        end
  end.

(** [stream.proxy_uuids], read like a method that changes nothing. *)
Definition get_proxy_uuids : M ProxyStream (list string) :=
  fun s => (Ok (proxy_uuids s), s).

Definition evict (k : option DIMKey) : M store unit :=
  let* key := attr_of k "stream_id" in
  (match stream_id key with
   | Some sid =>
       let* stream := subscript sid in
       call_method sid stream "end_stream" ProxyStream.end_stream;;
       let* ids := call_method sid stream "proxy_uuids" get_proxy_uuids in
       for_each ids (fun id => modify (delete id))
   | None => ret tt
   end);;
  modify (delete (obj_id key)).

Definition exists_ (k : option DIMKey) : M store bool :=
  let* key := attr_of k "obj_id" in
  let* d := get_state in
  ret (bool_decide (is_Some (d !! obj_id key))).

Definition put (k : option DIMKey) (data : bytes) : M store unit :=
  let* key := attr_of k "stream_id" in
  (match stream_id key with
   | Some sid =>
       let* d := get_state in
       let* stream :=
         (match d !! sid with
          | None =>
              modify (insert sid (Stream ProxyStream.new));;
              ret (Stream ProxyStream.new)
          | Some v => ret v
          end) in
       call_method sid stream "append" (ProxyStream.append (obj_id key))
   | None => ret tt
   end);;
  modify (insert (obj_id key) (Bytes data)).

Definition get (k : option DIMKey) (host_id : option string)
    : M store (option value) :=
  let* key := attr_of k "stream_id" in
  match stream_id key with
  | Some sid =>
      let* stream := subscript sid in
      call_method sid stream "connect" (ProxyStream.connect host_id);;
      let* proxy_uuid :=
        call_method sid stream "next_data" (ProxyStream.next_data host_id) in
      let* d := get_state in
      ret (proxy_uuid ≫= (fun id => d !! id))
  | None =>
      let* d := get_state in
      ret (d !! obj_id key)
  end.

(** The body of the [try] of [handle_rpc]. *)
Definition dispatch (rpc : RPC) : M store RPCResponse :=
  if String.eqb (operation rpc) "exists" then
    let* e := exists_ (key rpc) in
    ret (mkRPCResponse "exists" (key rpc) None (Some e) None)
  else if String.eqb (operation rpc) "evict" then
    evict (key rpc);;
    ret (mkRPCResponse "evict" (key rpc) None None None)
  else if String.eqb (operation rpc) "get" then
    let* v := get (key rpc) (client_id rpc) in
    ret (mkRPCResponse "get" (key rpc) v None None)
  else if String.eqb (operation rpc) "put" then
    match data rpc with
    | None => raise (AssertionError "")
    | Some b =>
        put (key rpc) b;;
        ret (mkRPCResponse "put" (key rpc) None None None)
    end
  else raise (AssertionError "Unreachable.").

Definition handle_rpc (rpc : RPC) : M store RPCResponse :=
  try_except (dispatch rpc)
    (fun e => Some (ret (mkRPCResponse (operation rpc) (key rpc)
                                       None None (Some e)))).

(** What the serving loop receives and sends back, once reassembled and
    deserialized. *)
Inductive message : Type :=
  | Ping
  | Request (rpc : RPC).

Inductive reply : Type :=
  | Pong
  | Reply (r : RPCResponse).

(** The loop of [run_server], over the messages that arrive before the
    shutdown signal: a ping is answered on the spot, anything else goes
    through [handle_rpc] and its response is sent back. The messages are
    the ones that deserialize to a ping or to a request, and the replies
    are the ones the transport takes: [deserialize], [serialize] and the
    cutting of the reply into chunks stand outside the [try] of
    [handle_rpc] and are not among the sources, so what the loop does on
    bytes that do not deserialize, or with a chunk length that is not
    positive, is not modelled. *)
Fixpoint run_server (msgs : list message) : M store (list reply) :=
  match msgs with
  | [] => ret []
  | Ping :: rest =>
      let* out := run_server rest in
      ret (Pong :: out)
  | Request rpc :: rest =>
      let* response := handle_rpc rpc in
      let* out := run_server rest in
      ret (Reply response :: out)
  end.

End ZeroMQServer.

(** ** What the connector asks of its process and of the network *)

(** A [multiprocessing.Process] handle. *)
Definition Process : Type := nat.

(** The calls of [zmqstream.py] that leave the module: the clock-driven
    probe, process management, the name service, random ids and the ZeroMQ
    socket. A world [W] answers them. [wait_for_server] polls a socket
    against the wall clock; the model takes only its outcome, return or
    [ServerTimeoutError], from the world. *)
Class Host (W : Type) : Type := {
  (** [str(uuid.uuid4())] *)
  uuid4 : M W string;
  (** [socket.gethostbyname(socket.gethostname())] *)
  gethostbyname_gethostname : M W string;
  (** [proxystore.connectors.dim.utils.get_ip_address(interface)] *)
  get_ip_address : string -> M W string;
  (** [wait_for_server(address, port, timeout)] *)
  wait_for_server : string -> Z -> Q -> M W unit;
  (** [multiprocessing.Process(target=start_server, args=...)] and [start()] *)
  process_start : string -> Z -> option Z -> M W Process;
  (** [atexit.register(_kill_on_exit)], with the [kill_timeout] it closes over *)
  atexit_register : Process -> option Q -> M W unit;
  (** [process.terminate()] and [process.join()] *)
  process_terminate : Process -> M W unit;
  process_join : Process -> M W unit;
  (** [zmq.Context()] and [context.socket(zmq.REQ)] *)
  zmq_socket : M W unit;
  (** [socket.connect(url)], then the serialized request sent in chunks of
      [chunk_length] bytes to [tcp://host:port] *)
  sock_send : string -> Z -> Z -> RPC -> M W unit;
  (** [recv_multipart], the parts joined and deserialized *)
  sock_recv : M W RPCResponse;
  (** [socket.close()] and [context.term()] *)
  sock_close : M W unit;
  context_term : M W unit;
}.

(** A value of a [dict[str, Any]] configuration. *)
Inductive pyval : Type :=
  | PyNone
  | PyStr (s : string)
  | PyInt (z : Z)
  | PyFloat (q : Q).

(** ** The connector *)

Definition MAX_CHUNK_LENGTH_DEFAULT : Z := 64 * 1024.

Record ZeroMQConnector : Type := mkZeroMQConnector {
  _address : option string;
  _interface : option string;
  _client_id : string;
  port : Z;
  chunk_length : Z;
  timeout : Q;
  address : string;
  server : option Process;
}.

Module ZeroMQConnector.
Section WithHost.
Context {W : Type} `{Host W}.

Definition spawn_server (address : string) (port : Z)
    (chunk_length : option Z) (spawn_timeout : Q) (kill_timeout : option Q)
    : M W Process :=
  let* server_process := process_start address port chunk_length in
  atexit_register server_process kill_timeout;;
  wait_for_server address port spawn_timeout;;
  ret server_process.

(** The [if]/[elif]/[else] of [__init__] that sets [self.address]. *)
Definition resolve_address (address interface : option string) : M W string :=
  match address with
  | Some a => ret a
  | None =>
    match interface with
    | Some i => get_ip_address i
    | None => gethostbyname_gethostname
    end
  end.

(** [__init__]: [spawn_server] is called with its default
    [kill_timeout = 1.0]. Printing the url and logging are left out. *)
Definition __init__ (port : Z) (address interface : option string)
    (chunk_length : option Z) (timeout : Q) : M W ZeroMQConnector :=
  let* client_id := uuid4 in
  let chunk_length :=
  match chunk_length with
  | None => MAX_CHUNK_LENGTH_DEFAULT
  | Some n => n
  end in
  let* self_address := resolve_address address interface in
  let* server :=
  try_except
    (wait_for_server self_address port timeout;;
     ret None)
    (fun e =>
       match e with
       | ServerTimeoutError =>
           Some (let* p := spawn_server self_address port
                             (Some chunk_length) timeout (Some 1%Q) in
                 ret (Some p))
       | _ => None
       end) in
  zmq_socket;;
  ret {| _address := address; _interface := interface;
       _client_id := client_id; port := port;
       chunk_length := chunk_length; timeout := timeout;
       address := self_address; server := server |}.

(** [rpc.key.peer_host] on the client side. *)
Definition key_of (rpc : RPC) : M W DIMKey :=
  match key rpc with
  | Some k => ret k
  | None => raise (AttributeError "NoneType" "peer_host")
  end.

(** One turn of the loop of [_send_rpcs]. *)
Definition send_rpc (self : ZeroMQConnector) (rpc : RPC) : M W RPCResponse :=
  let* k := key_of rpc in
  sock_send (peer_host k) (peer_port k) (chunk_length self) rpc;;
  let* response := sock_recv in
  match r_exception response with
  | Some e => raise e
  | None =>
    if negb (String.eqb (operation rpc) (r_operation response))
    then raise (AssertionError "")
    else if negb (bool_decide (key rpc = r_key response))
    then raise (AssertionError "")
    else ret response
  end.

Definition _send_rpcs (self : ZeroMQConnector) (rpcs : list RPC)
    : M W (list RPCResponse) :=
  map_m (send_rpc self) rpcs.

Definition close (self : ZeroMQConnector) (kill_server : bool) : M W unit :=
  (if kill_server then
   match server self with
   | Some p => process_terminate p;; process_join p
   | None => ret tt
   end
   else ret tt);;
  sock_close;;
  context_term.

Definition config (self : ZeroMQConnector) : gmap string pyval :=
  <["address" := from_option PyStr PyNone (_address self)]>
  (<["interface" := from_option PyStr PyNone (_interface self)]>
  (<["port" := PyInt (port self)]>
  (<["chunk_length" := PyInt (chunk_length self)]>
  (<["timeout" := PyFloat (timeout self)]> ∅)))).

(** Reading a keyword argument at the type [__init__] annotates. *)
Definition as_int (v : pyval) : option Z :=
  match v with PyInt z => Some z | _ => None end.
Definition as_opt_int (v : pyval) : option (option Z) :=
  match v with PyNone => Some None | PyInt z => Some (Some z) | _ => None end.
Definition as_opt_str (v : pyval) : option (option string) :=
  match v with PyNone => Some None | PyStr s => Some (Some s) | _ => None end.
Definition as_float (v : pyval) : option Q :=
  match v with PyFloat q => Some q | PyInt z => Some (inject_Z z) | _ => None end.

Definition keyword (config : gmap string pyval) {A} (name : string)
    (read : pyval -> option A) (default : option A) : exn + A :=
  match config !! name with
  | Some v =>
    match read v with
    | Some a => inr a
    | None => inl (TypeError ("ill-typed argument: " ++ name))
    end
  | None =>
    match default with
    | Some a => inr a
    | None => inl (TypeError ("missing required argument: " ++ name))
    end
  end.

(** [cls] applied to the entries of [config] as keyword arguments: the call fails with [TypeError] on a key that is no
    parameter of [__init__] and on a missing [port]; the other parameters
    have their defaults. A value that is not of the annotated type of its
    parameter lies outside the typed model and is refused here too. *)
Definition from_config (config : gmap string pyval) : M W ZeroMQConnector :=
  if negb (bool_decide (dom config ⊆
           ({["port"; "address"; "interface"; "chunk_length"; "timeout"]}
              : gset string)))
  then raise (TypeError "unexpected keyword argument")
  else
  match keyword config "port" as_int None,
        keyword config "address" as_opt_str (Some None),
        keyword config "interface" as_opt_str (Some None),
        keyword config "chunk_length" as_opt_int (Some None),
        keyword config "timeout" as_float (Some 1%Q) with
  | inr p, inr a, inr i, inr c, inr t => __init__ p a i c t
  | inl e, _, _, _, _ => raise e
  | _, inl e, _, _, _ => raise e
  | _, _, inl e, _, _ => raise e
  | _, _, _, inl e, _ => raise e
  | _, _, _, _, inl e => raise e
  end.

Definition evict (self : ZeroMQConnector) (key : option DIMKey) : M W unit :=
  let rpc := mkRPC "evict" key None (Some (_client_id self)) in
  _send_rpcs self [rpc];;
  ret tt.

Definition exists_ (self : ZeroMQConnector) (key : option DIMKey) : M W bool :=
  let rpc := mkRPC "exists" key None None in
  let* responses := _send_rpcs self [rpc] in
  match responses with
  | [response] =>
    match r_exists response with
    | Some b => ret b
    | None => raise (AssertionError "")
    end
  | _ => raise (ValueError "unpack")
  end.

Definition get (self : ZeroMQConnector) (key : option DIMKey)
    : M W (option value) :=
  let rpc := mkRPC "get" key None (Some (_client_id self)) in
  let* responses := _send_rpcs self [rpc] in
  match responses with
  | [result] => ret (r_data result)
  | _ => raise (ValueError "unpack")
  end.

Definition get_batch (self : ZeroMQConnector) (keys : list (option DIMKey))
    : M W (list (option value)) :=
  let rpcs :=
  map (fun key => mkRPC "get" key None (Some (_client_id self))) keys in
  let* responses := _send_rpcs self rpcs in
  ret (map r_data responses).

Definition len (obj : bytes) : Z := Z.of_nat (length obj).

(** [put] returns its argument [key]. *)
Definition put (self : ZeroMQConnector) (obj : bytes) (key : option DIMKey)
    : M W (option DIMKey) :=
  let* data_key :=
  (match key with
   | None =>
       let* id := uuid4 in
       ret (mkDIMKey "zmq" id (len obj) (address self) (port self) None)
   | Some k =>
       let* id := uuid4 in
       ret (mkDIMKey "zmq" id (len obj) (address self) (port self)
                     (stream_id k))
   end) in
  let rpc := mkRPC "put" (Some data_key) (Some obj) None in
  _send_rpcs self [rpc];;
  ret key.

(** The first comprehension of [put_batch]: one key per object; the
    arguments of [DIMKey] are evaluated in order, the id before
    [key.stream_id]. *)
Definition batch_key (self : ZeroMQConnector) (key : option DIMKey)
    (obj : bytes) : M W DIMKey :=
  let* id := uuid4 in
  let* sid :=
  (match key with
   | Some k => ret (stream_id k)
   | None => raise (AttributeError "NoneType" "stream_id")
   end) in
  ret (mkDIMKey "zmq" id (len obj) (address self) (port self) sid).

(** The second comprehension of [put_batch] has two [for] clauses: for
    every element of [keys], every pair of [zip(keys, objs)]. *)
Definition batch_rpcs (keys : list DIMKey) (objs : list bytes) : list RPC :=
  flat_map
  (fun _ : DIMKey =>
     map (fun ko : DIMKey * bytes =>
            mkRPC "put" (Some ko.1) (Some ko.2) None)
         (zip keys objs))
  keys.

Definition put_batch (self : ZeroMQConnector) (objs : list bytes)
    (key : option DIMKey) : M W (list DIMKey) :=
  let* keys := map_m (batch_key self key) objs in
  let rpcs := batch_rpcs keys objs in
  _send_rpcs self rpcs;;
  ret keys.

Definition create_stream (self : ZeroMQConnector) : M W DIMKey :=
  let* stream_id := uuid4 in
  ret (mkDIMKey "zmq" stream_id 0 (address self) (port self) (Some stream_id)).

Definition close_stream (self : ZeroMQConnector) (key : option DIMKey)
    : M W unit :=
  evict self key.

End WithHost.
End ZeroMQConnector.

(** ** A world of ZeroMQ servers

    One process with its REQ socket, and the servers it can reach. The wire
    is lossless: what [sock_send] hands over is what the server's loop
    deserializes, and the reply the server sends is what [sock_recv] returns
    (serialization and chunking are not among the sources). A server that
    is alive answers a probe with a positive timeout in time, and chunk
    lengths are taken to be positive, as cutting a message needs. *)

Inductive event : Type :=
  | Sent (host : string) (port : Z) (rpc : RPC)
  | Received (r : RPCResponse)
  | SocketClosed
  | ContextTerminated.

(** A server is waiting for requests with its store, or is stuck inside a
    handler that never returns. *)
Inductive server_state : Type :=
  | Serving (d : gmap string value)
  | Hung.

Record World : Type := mkWorld {
  (** the servers bound to [tcp://host:port] *)
  servers : gmap (string * Z) server_state;
  (** the child processes started, each with the endpoint it serves, if it
      could bind it *)
  processes : gmap nat (option (string * Z));
  (** replies that arrived on the socket and were not read yet *)
  inbox : list RPCResponse;
  (** the ids [uuid4] is going to return, and how many were drawn *)
  uuids : nat -> string;
  drawn : nat;
  (** the address of an interface, or of the host name for [None] *)
  name_service : option string -> option string;
  (** what the socket did, oldest first *)
  log : list event;
}.

Module World.

Definition set_servers (f : gmap (string * Z) server_state ->
                            gmap (string * Z) server_state) (w : World) :=
  mkWorld (f (servers w)) (processes w) (inbox w) (uuids w) (drawn w)
          (name_service w) (log w).
Definition set_processes (f : gmap nat (option (string * Z)) ->
                              gmap nat (option (string * Z))) (w : World) :=
  mkWorld (servers w) (f (processes w)) (inbox w) (uuids w) (drawn w)
          (name_service w) (log w).
Definition set_inbox (f : list RPCResponse -> list RPCResponse) (w : World) :=
  mkWorld (servers w) (processes w) (f (inbox w)) (uuids w) (drawn w)
          (name_service w) (log w).
Definition set_drawn (f : nat -> nat) (w : World) :=
  mkWorld (servers w) (processes w) (inbox w) (uuids w) (f (drawn w))
          (name_service w) (log w).
Definition record (e : event) (w : World) :=
  mkWorld (servers w) (processes w) (inbox w) (uuids w) (drawn w)
          (name_service w) (log w ++ [e]).

Definition w_uuid4 : M World string :=
  fun w => (Ok (uuids w (drawn w)), set_drawn S w).

Definition resolve (name : option string) : M World string :=
  fun w =>
    match name_service w name with
    | Some ip => (Ok ip, w)
    | None => (Raise (OSError "address lookup failed"), w)
    end.

(** The probe in this world: it fails for a timeout that is not positive
    (the loop of [wait_for_server] is never entered) and when nobody serves
    at the endpoint. That a live server answers whatever positive timeout
    is given is the idealisation of this world; the code polls against the
    wall clock and may give up on a server that is slow to answer. *)
Definition w_wait_for_server (host : string) (port : Z) (timeout : Q)
    : M World unit :=
  fun w =>
    if Qle_bool timeout 0 then (Raise ServerTimeoutError, w)
    else
      match servers w !! (host, port) with
      | Some (Serving _) => (Ok tt, w)
      | _ => (Raise ServerTimeoutError, w)
      end.

(** The child binds the endpoint if nobody holds it, and serves an empty
    store there. In this world it does so at once and at any port; a real
    child takes time to come up and cannot bind every port. *)
Definition w_process_start (host : string) (port : Z) (chunk : option Z)
    : M World Process :=
  fun w =>
    let pid := fresh (dom (processes w)) in
    match servers w !! (host, port) with
    | None =>
        (Ok pid, set_processes (insert pid (Some (host, port)))
                   (set_servers (insert (host, port)
                                   (Serving ZeroMQServer.__init__)) w))
    | Some _ => (Ok pid, set_processes (insert pid None) w)
    end.

Definition w_process_terminate (p : Process) : M World unit :=
  fun w =>
    match processes w !! p with
    | Some (Some ep) =>
        (Ok tt, set_processes (insert p None) (set_servers (delete ep) w))
    | _ => (Ok tt, w)
    end.

(** The request reaches the server bound to the endpoint, which handles
    it and replies; with nobody there, or a server that is stuck, no reply
    ever comes. The chunk length is not looked at: this is the send of a
    connector whose chunk length is positive, which the properties stated
    in this world assume. *)
Definition w_sock_send (host : string) (port : Z) (chunk : Z) (rpc : RPC)
    : M World unit :=
  fun w =>
    let w := record (Sent host port rpc) w in
    match servers w !! (host, port) with
    | Some (Serving d) =>
        match ZeroMQServer.handle_rpc rpc d with
        | (Ok response, d') =>
            (Ok tt, set_inbox (fun q => (q ++ [response])%list)
                      (set_servers (insert (host, port) (Serving d')) w))
        | (_, _) => (Ok tt, set_servers (insert (host, port) Hung) w)
        end
    | _ => (Ok tt, w)
    end.

Definition w_sock_recv : M World RPCResponse :=
  fun w =>
    match inbox w with
    | response :: rest =>
        (Ok response, record (Received response) (set_inbox (fun _ => rest) w))
    | [] => (Blocks, w)
    end.

#[global] Instance host : Host World := {
  uuid4 := w_uuid4;
  gethostbyname_gethostname := resolve None;
  get_ip_address := fun i => resolve (Some i);
  wait_for_server := w_wait_for_server;
  process_start := w_process_start;
  atexit_register := fun _ _ => ret tt;
  process_terminate := w_process_terminate;
  process_join := fun _ => ret tt;
  zmq_socket := ret tt;
  sock_send := w_sock_send;
  sock_recv := w_sock_recv;
  sock_close := modify (record SocketClosed);
  context_term := modify (record ContextTerminated);
}.



(** The requests sent, in order. *)
Definition requests (l : list event) : list RPC :=
  omap (fun e => match e with Sent _ _ rpc => Some rpc | _ => None end) l.

End World.

(** ** Statements used below *)

Module Statements.
Import ZeroMQServer.

(** The store [ZeroMQServer.evict] leaves for a key of the stream [s] found
    under [sid]: the stream ended, its packets popped, then the key's own
    entry popped. *)
Definition evicted (key : DIMKey) (sid : string) (s : ProxyStream)
    (d : gmap string value) : gmap string value :=
  delete (obj_id key)
    (foldl (fun m id => delete id m)
       (<[sid := Stream (mkProxyStream (proxy_uuids s) (cursors s) true)]> d)
       (proxy_uuids s)).

(** The response that carries the failure [e] of the request [rpc]. *)
Definition failure (rpc : RPC) (e : exn) : RPCResponse :=
  mkRPCResponse (operation rpc) (key rpc) None None (Some e).

(** The response that acknowledges [rpc] with nothing else to say. *)
Definition ack (rpc : RPC) : RPCResponse :=
  mkRPCResponse (operation rpc) (key rpc) None None None.

(** A [put] request without [data] is answered, from the store [d] left as
    it was, by a response whose [exception] is [e]. *)
Definition put_without_data_fails_with (e : exn) (rpc : RPC)
    (d : gmap string value) : Prop :=
  handle_rpc rpc d = (Ok (failure rpc e), d).

Section WithHost.
Context {W : Type} `{Host W}.

(** In the world [w] the request [rpc] goes out and [response] comes back,
    leaving the world [w']. *)
Definition answered (self : ZeroMQConnector) (rpc : RPC) (w : W)
    (response : RPCResponse) (w' : W) : Prop :=
  exists k w1,
    key rpc = Some k /\
    sock_send (peer_host k) (peer_port k) (chunk_length self) rpc w
      = (Ok tt, w1) /\
    sock_recv w1 = (Ok response, w').

(** A call that sends [rpcs] from the world [w] and ends with [outcome]
    raises what the server reports: whenever the requests before some [rpc]
    were answered without failure and the response to [rpc] carries the
    exception [e], the call raises [e] there. *)
Definition raises_reported {A} (self : ZeroMQConnector) (rpcs : list RPC)
    (w : W) (outcome : res A * W) : Prop :=
  forall pre rpc post rs w1 response w2 e,
    rpcs = (pre ++ rpc :: post)%list ->
    ZeroMQConnector._send_rpcs self pre w = (Ok rs, w1) ->
    answered self rpc w1 response w2 ->
    r_exception response = Some e ->
    outcome = (Raise e, w2).

End WithHost.

(** The keys [put_batch] builds for [objs] when [uuid4] returns
    [ids start], [ids (start + 1)], ...: one key per payload, in order. *)
Fixpoint fresh_keys (self : ZeroMQConnector) (sid : option string)
    (ids : nat -> string) (start : nat) (objs : list bytes) : list DIMKey :=
  match objs with
  | [] => []
  | obj :: objs' =>
      mkDIMKey "zmq" (ids start) (ZeroMQConnector.len obj)
               (address self) (port self) sid
      :: fresh_keys self sid ids (S start) objs'
  end.

(** What the socket logs for requests sent and acknowledged one at a time. *)
Definition one_at_a_time (self : ZeroMQConnector) (rpcs : list RPC)
    : list event :=
  flat_map (fun rpc => [Sent (address self) (port self) rpc;
                        Received (ack rpc)]) rpcs.

(** The claim on [put_batch], as the specification words it: one request
    per payload, all of them dispatched before any response is awaited, as
    many keys as payloads, and [get_batch] on them gives the payloads back
    in order. [new_events] are the events the call added to the log. *)
Definition new_events (w w' : World) : list event :=
  drop (length (log w)) (log w').


(** The claim on [put], as the specification words it: the call returns a
    key, and [get] of what it returned gives the payload back. *)
Definition put_as_specified (self : ZeroMQConnector) (obj : bytes)
    (w : World) : Prop :=
  exists k w',
    ZeroMQConnector.put self obj None w = (Ok (Some k), w') /\
    (ZeroMQConnector.get self (Some k) w').1 = Ok (Some (Bytes obj)).

(** The world after [rpc] went to the server at [host:port], which now holds
    [d'], and its [response] was read from the socket. *)
Definition exchanged (host : string) (port : Z) (rpc : RPC)
    (response : RPCResponse) (d' : gmap string value) (w : World) : World :=
  mkWorld (<[(host, port) := Serving d']> (servers w)) (processes w) []
          (uuids w) (drawn w) (name_service w)
          (log w ++ [Sent host port rpc; Received response]).

(** The requests of [put_batch] and of [get_batch]. *)
Definition put_rpc (ko : DIMKey * bytes) : RPC :=
  mkRPC "put" (Some ko.1) (Some ko.2) None.
Definition get_rpc (self : ZeroMQConnector) (k : DIMKey) : RPC :=
  mkRPC "get" (Some k) None (Some (_client_id self)).

(** The store after the payloads of [kos] were put, in order. *)
Definition store_all (kos : list (DIMKey * bytes)) (d : gmap string value)
    : gmap string value :=
  foldl (fun m ko => <[obj_id ko.1 := Bytes ko.2]> m) d kos.

(** The response to [get] of the plain key [k] from the store [d]. *)
Definition found (d : gmap string value) (k : DIMKey) : RPCResponse :=
  mkRPCResponse "get" (Some k) (d !! obj_id k) None None.

(** A key of a standalone object that lives on the connector's own server. *)
Definition own_plain (self : ZeroMQConnector) (k : DIMKey) : Prop :=
  stream_id k = None /\ peer_host k = address self /\
  peer_port k = port self.




End Statements.

(** ** A small world to run the code in *)

Module Example.
Import Byte.

(** Ids "u", "au", "aau", ... *)
Fixpoint ids (n : nat) : string :=
  match n with
  | O => "u"
  | S n' => "a" ++ ids n'
  end.

(** One server with an empty store at 10.0.0.1:5555. *)
Definition w0 : World :=
  mkWorld {[ ("10.0.0.1", 5555) := Serving ZeroMQServer.__init__ ]} ∅ [] ids 0
          (fun _ => Some "10.0.0.1") [].

(** A connector that attached to it. *)
Definition c0 : ZeroMQConnector :=
  mkZeroMQConnector (Some "10.0.0.1") None "client" 5555 65536 1%Q
                    "10.0.0.1" None.

(** A plain key and a key of the stream "s". *)
Definition plain_key : DIMKey := mkDIMKey "zmq" "k" 0 "10.0.0.1" 5555 None.
Definition stream_key : DIMKey :=
  mkDIMKey "zmq" "s" 0 "10.0.0.1" 5555 (Some "s").
Definition packet_key : DIMKey :=
  mkDIMKey "zmq" "p" 3 "10.0.0.1" 5555 (Some "s").

Definition payload : bytes := [x01; x02; x03].

(** A store holding the stream "s" with the one packet "p". *)
Definition d_stream : gmap string value :=
  <["p" := Bytes payload]>
    (<["s" := Stream (mkProxyStream ["p"] ∅ false)]> ∅).

(** The same world with an unread response left on the socket. *)
Definition w_stale : World :=
  mkWorld {[ ("10.0.0.1", 5555) := Serving ZeroMQServer.__init__ ]} ∅
          [mkRPCResponse "evict" (Some plain_key) None None None] ids 0
          (fun _ => Some "10.0.0.1") [].

(** The same world on a host whose names and interfaces do not resolve. *)
Definition w_unresolved : World :=
  mkWorld {[ ("10.0.0.1", 5555) := Serving ZeroMQServer.__init__ ]} ∅ []
          ids 0 (fun _ => None) [].



End Example.

(** * Properties of the server *)

Section ServerProperties.
Import ZeroMQServer Statements.

Implicit Types (d : gmap string value) (k : DIMKey) (s : ProxyStream).

(** The loop of [evict] that pops the packets of a stream. *)
Lemma for_each_delete (ids : list string) d :
  for_each ids (fun id => modify (delete id)) d
  = (Ok tt, foldl (fun m id => delete id m) d ids).
Proof.
  revert d. induction ids as [|id ids IH]; intros d; [reflexivity|].
  cbn [for_each foldl]. unfold bind at 1, modify at 1. apply IH.
Qed.

Lemma lookup_foldl_delete (ids : list string) d (i : string) :
  foldl (fun m id => delete id m) d ids !! i
  = if decide (i ∈ ids) then None else d !! i.
Proof.
  revert d. induction ids as [|id ids IH]; intros d; cbn [foldl].
  - case_decide as Hin; [by apply elem_of_nil in Hin|done].
  - rewrite IH. destruct (decide (i ∈ ids)) as [Hin|Hnin].
    + rewrite decide_True; [done|by right].
    + destruct (decide (i = id)) as [->|Hne].
      * rewrite lookup_delete_eq. rewrite decide_True; [done|by left].
      * rewrite lookup_delete_ne by done. rewrite decide_False; [done|].
        by intros [?|?]%elem_of_cons.
Qed.

Lemma evict_stream key sid s d :
  stream_id key = Some sid ->
  d !! sid = Some (Stream s) ->
  evict (Some key) d = (Ok tt, evicted key sid s d).
Proof.
  intros Hsid Hd. unfold evict, evicted, attr_of.
  unfold bind at 1, ret at 1. rewrite Hsid.
  unfold bind at 1. unfold bind at 1, subscript at 1. rewrite Hd.
  unfold bind at 1, call_method at 1. rewrite Hd.
  unfold ProxyStream.end_stream at 1.
  unfold bind at 1, call_method at 1. rewrite lookup_insert_eq.
  unfold get_proxy_uuids at 1. cbn [proxy_uuids].
  rewrite insert_insert_eq, for_each_delete. reflexivity.
Qed.

Lemma evicted_lookup key sid s d (i : string) :
  evicted key sid s d !! i
  = if decide (i = obj_id key) then None
    else if decide (i ∈ proxy_uuids s) then None
    else if decide (i = sid)
         then Some (Stream (mkProxyStream (proxy_uuids s) (cursors s) true))
         else d !! i.
Proof.
  unfold evicted. destruct (decide (i = obj_id key)) as [->|Hne].
  - apply lookup_delete_eq.
  - rewrite lookup_delete_ne by done. rewrite lookup_foldl_delete.
    destruct (decide (i ∈ proxy_uuids s)); [done|].
    destruct (decide (i = sid)) as [->|Hne'].
    + apply lookup_insert_eq.
    + by rewrite lookup_insert_ne.
Qed.

Lemma exists_false k d :
  d !! obj_id k = None -> exists_ (Some k) d = (Ok false, d).
Proof.
  intros Hd. unfold exists_, attr_of, bind, ret, get_state.
  rewrite Hd. by rewrite bool_decide_eq_false_2 by (apply is_Some_None).
Qed.

Lemma exists_true k d :
  is_Some (d !! obj_id k) -> exists_ (Some k) d = (Ok true, d).
Proof.
  intros Hd. unfold exists_, attr_of, bind, ret, get_state.
  by rewrite bool_decide_eq_true_2.
Qed.

Lemma handle_rpc_ok rpc d r d' :
  dispatch rpc d = (Ok r, d') -> handle_rpc rpc d = (Ok r, d').
Proof. intros Hd. unfold handle_rpc, try_except. by rewrite Hd. Qed.

Lemma handle_rpc_raise rpc d e d' :
  dispatch rpc d = (Raise e, d') ->
  handle_rpc rpc d = (Ok (failure rpc e), d').
Proof. intros Hd. unfold handle_rpc, try_except. by rewrite Hd. Qed.

Lemma handle_rpc_never_raises rpc d e d' :
  handle_rpc rpc d <> (Raise e, d').
Proof.
  unfold handle_rpc, try_except.
  destruct (dispatch rpc d) as [[r|e'|] d'']; unfold ret; congruence.
Qed.

Lemma dispatch_evict (ko : option DIMKey) cid d :
  dispatch (mkRPC "evict" ko None cid) d
  = (evict ko;; ret (mkRPCResponse "evict" ko None None None)) d.
Proof. reflexivity. Qed.

Lemma dispatch_get (ko : option DIMKey) cid d :
  dispatch (mkRPC "get" ko None cid) d
  = (let* v := get ko cid in ret (mkRPCResponse "get" ko v None None)) d.
Proof. reflexivity. Qed.

Lemma dispatch_put (ko : option DIMKey) b cid d :
  dispatch (mkRPC "put" ko (Some b) cid) d
  = (put ko b;; ret (mkRPCResponse "put" ko None None None)) d.
Proof. reflexivity. Qed.

(** [put] on a key of the stream [sid] always leaves an entry under [sid],
    whatever its outcome. *)
Lemma put_stream_entry key b sid d :
  stream_id key = Some sid ->
  is_Some ((put (Some key) b d).2 !! sid).
Proof.
  intros Hsid. unfold put, attr_of.
  unfold bind at 1, ret at 1. rewrite Hsid.
  unfold bind at 1. unfold bind at 1, get_state at 1.
  unfold bind at 1.
  destruct (d !! sid) as [v|] eqn:Hd.
  - unfold ret at 1. destruct v as [b'|s]; cbn [call_method].
    + unfold raise. cbn. by rewrite Hd.
    + rewrite Hd. unfold ProxyStream.append.
      destruct (ended s); cbn.
      * by rewrite lookup_insert_eq.
      * unfold modify. cbn.
        destruct (decide (obj_id key = sid)) as [->|Hne].
        -- by rewrite lookup_insert_eq.
        -- rewrite lookup_insert_ne by done. by rewrite lookup_insert_eq.
  - unfold bind at 1, modify at 1, ret at 1. cbn [call_method].
    rewrite lookup_insert_eq. cbn.
    unfold modify. cbn.
    destruct (decide (obj_id key = sid)) as [->|Hne].
    + by rewrite lookup_insert_eq.
    + rewrite lookup_insert_ne by done. by rewrite lookup_insert_eq.
Qed.

(** The first [put] on a stream creates the stream object under [sid]. *)
Lemma put_creates_stream key b sid d :
  stream_id key = Some sid ->
  d !! sid = None ->
  put (Some key) b d
  = (Ok tt, <[obj_id key := Bytes b]>
              (<[sid := Stream (mkProxyStream [obj_id key] ∅ false)]> d)).
Proof.
  intros Hsid Hd. unfold put, attr_of.
  unfold bind at 1, ret at 1. rewrite Hsid.
  unfold bind at 1. unfold bind at 1, get_state at 1.
  unfold bind at 1. rewrite Hd.
  unfold bind at 1, modify at 1, ret at 1. cbn [call_method].
  rewrite lookup_insert_eq. cbn. unfold modify.
  by rewrite insert_insert_eq.
Qed.

Lemma missing_stream_get key sid host d :
  stream_id key = Some sid -> d !! sid = None ->
  get (Some key) host d = (Raise (KeyError sid), d).
Proof.
  intros Hsid Hd. unfold get, attr_of.
  unfold bind at 1, ret at 1. rewrite Hsid.
  unfold bind at 1, subscript at 1. by rewrite Hd.
Qed.

Lemma missing_stream_evict key sid d :
  stream_id key = Some sid -> d !! sid = None ->
  evict (Some key) d = (Raise (KeyError sid), d).
Proof.
  intros Hsid Hd. unfold evict, attr_of.
  unfold bind at 1, ret at 1. rewrite Hsid.
  unfold bind at 1. unfold bind at 1, subscript at 1. by rewrite Hd.
Qed.

Lemma evict_plain key d :
  stream_id key = None ->
  evict (Some key) d = (Ok tt, delete (obj_id key) d).
Proof.
  intros Hsid. unfold evict, attr_of.
  unfold bind at 1, ret at 1. by rewrite Hsid.
Qed.

End ServerProperties.

Section ServerClaims.
Import ZeroMQServer Statements.

(** C3. Whenever the handler that [handle_rpc] dispatches to raises an
    exception [e], [handle_rpc] returns a response with the operation and
    the key of the request and [e] in its [exception] field; it never
    raises itself, and the serving loop goes on with the requests that
    follow, from the store the failed handler left. *)
Theorem handle_rpc_isolates_failures (rpc : RPC) (d d' : gmap string value)
    (e : exn) :
  dispatch rpc d = (Raise e, d') ->
  handle_rpc rpc d = (Ok (failure rpc e), d') /\
  r_operation (failure rpc e) = operation rpc /\
  r_key (failure rpc e) = key rpc /\
  r_exception (failure rpc e) = Some e /\
  (forall rpc' d1 e' d2, handle_rpc rpc' d1 <> (Raise e', d2)) /\
  (forall rest,
     run_server (Request rpc :: rest) d
     = (let* out := run_server rest in
        ret (Reply (failure rpc e) :: out)) d').
Proof.
  intros Hd. pose proof (handle_rpc_raise _ _ _ _ Hd) as Hh.
  repeat split; try done.
  - intros rpc' d1 e' d2. apply handle_rpc_never_raises.
  - intros rest. cbn [run_server]. unfold bind at 1. by rewrite Hh.
Qed.

(** An [evict] for a stream nobody created fails in the handler; the
    response carries the [KeyError] and the next request is served. *)
Lemma handle_rpc_isolates_failures_witness :
  dispatch (mkRPC "evict" (Some Example.stream_key) None None) ∅
    = (Raise (KeyError "s"), ∅) /\
  run_server
    [Request (mkRPC "evict" (Some Example.stream_key) None None);
     Request (mkRPC "exists" (Some Example.plain_key) None None)] ∅
  = (Ok [Reply (failure (mkRPC "evict" (Some Example.stream_key) None None)
                        (KeyError "s"));
         Reply (mkRPCResponse "exists" (Some Example.plain_key) None
                              (Some false) None)], ∅).
Proof.
  assert (dispatch (mkRPC "evict" (Some Example.stream_key) None None) ∅
          = (Raise (KeyError "s"), ∅)) as Hraise by reflexivity.
  split; [exact Hraise|].
  destruct (handle_rpc_isolates_failures _ _ _ _ Hraise)
    as (_ & _ & _ & _ & _ & Hloop).
  rewrite Hloop. reflexivity.
Defined.

(** C4. For a key whose [stream_id] names a stream held in the store, one
    call of [evict] (one [evict] request) ends the stream, pops every
    packet id the stream recorded and pops the key's own [obj_id];
    afterwards [exists] is false for the key and for every packet id, the
    stream is gone when the key is the stream's own key, and no other
    entry changed. *)
Theorem evict_stream_cascades (d : gmap string value) (key : DIMKey)
    (sid : string) (s : ProxyStream) (cid : option string) :
  stream_id key = Some sid ->
  d !! sid = Some (Stream s) ->
  let d' := evicted key sid s d in
  evict (Some key) d = (Ok tt, d') /\
  handle_rpc (mkRPC "evict" (Some key) None cid) d
    = (Ok (ack (mkRPC "evict" (Some key) None cid)), d') /\
  exists_ (Some key) d' = (Ok false, d') /\
  (forall k', obj_id k' ∈ proxy_uuids s ->
              exists_ (Some k') d' = (Ok false, d')) /\
  (forall id, id ∈ proxy_uuids s -> d' !! id = None) /\
  (obj_id key = sid -> d' !! sid = None) /\
  (forall s', d' !! sid = Some (Stream s') -> ended s' = true) /\
  (forall id, id <> obj_id key -> id ∉ proxy_uuids s -> id <> sid ->
              d' !! id = d !! id).
Proof.
  intros Hsid Hd d'. pose proof (evict_stream _ _ _ _ Hsid Hd) as He.
  split; [exact He|]. split.
  { apply handle_rpc_ok. rewrite dispatch_evict.
    unfold bind. fold d'. by rewrite He. }
  split.
  { apply exists_false. unfold d'. rewrite evicted_lookup.
    by rewrite decide_True. }
  split.
  { intros k' Hin. apply exists_false. unfold d'. rewrite evicted_lookup.
    destruct (decide (obj_id k' = obj_id key)); [done|].
    by rewrite decide_True. }
  split.
  { intros id Hin. unfold d'. rewrite evicted_lookup.
    destruct (decide (id = obj_id key)); [done|]. by rewrite decide_True. }
  split.
  { intros Heq. unfold d'. rewrite evicted_lookup. by rewrite decide_True. }
  split.
  { intros s'. unfold d'. rewrite evicted_lookup.
    destruct (decide (sid = obj_id key)); [done|].
    destruct (decide (sid ∈ proxy_uuids s)); [done|].
    rewrite decide_True by done. by intros [= <-]. }
  intros id H1 H2 H3. unfold d'. rewrite evicted_lookup.
  by rewrite !decide_False.
Qed.

(** Evicting the stream "s" by its own key empties a store that held the
    stream and its one packet. *)
Lemma evict_stream_cascades_witness :
  stream_id Example.stream_key = Some "s" /\
  Example.d_stream !! "s" = Some (Stream (mkProxyStream ["p"] ∅ false)) /\
  evict (Some Example.stream_key) Example.d_stream
    = (Ok tt, evicted Example.stream_key "s" (mkProxyStream ["p"] ∅ false)
                Example.d_stream) /\
  exists_ (Some Example.packet_key)
          (evicted Example.stream_key "s" (mkProxyStream ["p"] ∅ false)
             Example.d_stream)
    = (Ok false, evicted Example.stream_key "s" (mkProxyStream ["p"] ∅ false)
                   Example.d_stream).
Proof.
  assert (stream_id Example.stream_key = Some "s") as Hsid by reflexivity.
  assert (Example.d_stream !! "s"
          = Some (Stream (mkProxyStream ["p"] ∅ false))) as Hd
    by reflexivity.
  split; [exact Hsid|]. split; [exact Hd|].
  destruct (evict_stream_cascades _ _ _ _ None Hsid Hd)
    as (He & _ & _ & Hp & _).
  split; [exact He|].
  apply Hp. cbn. apply list_elem_of_here.
Defined.

(** C6, as the code has it. A [put] request without [data] trips the
    [assert] of [handle_rpc] before the store is touched: the response
    carries the operation and key of the request and an [AssertionError]
    in its [exception] field, and the store is unchanged. *)
Theorem put_without_data_is_assertion_error (rpc : RPC)
    (d : gmap string value) :
  operation rpc = "put" ->
  data rpc = None ->
  put_without_data_fails_with (AssertionError "") rpc d /\
  r_operation (failure rpc (AssertionError "")) = "put" /\
  r_key (failure rpc (AssertionError "")) = key rpc.
Proof.
  intros Hop Hdata. split; [|by rewrite <- Hop].
  unfold put_without_data_fails_with. apply handle_rpc_raise.
  unfold dispatch. rewrite Hop, Hdata. reflexivity.
Qed.

Lemma put_without_data_is_assertion_error_witness :
  operation (mkRPC "put" (Some Example.plain_key) None None) = "put" /\
  data (mkRPC "put" (Some Example.plain_key) None None) = None /\
  put_without_data_fails_with (AssertionError "")
    (mkRPC "put" (Some Example.plain_key) None None) ∅.
Proof.
  split; [reflexivity|]. split; [reflexivity|].
  apply (put_without_data_is_assertion_error
           (mkRPC "put" (Some Example.plain_key) None None));
    reflexivity.
Defined.

(** C6, as the claim words it, fails: the exception of the response to a
    [put] request without data is not [InvalidStateError]. *)
Lemma put_without_data_not_invalid_state :
  ~ put_without_data_fails_with InvalidStateError
      (mkRPC "put" (Some Example.plain_key) None None) ∅.
Proof. unfold put_without_data_fails_with. cbv. discriminate. Qed.

(** C9. Streams and payloads share the one map [data]: after a [put] whose
    key carries the stream id [sid], whatever the outcome of that [put],
    [exists] answers true for any key whose [obj_id] is [sid]; and when the
    store had nothing under [sid] and the packet has another id, what sits
    under [sid] is the stream object, not bytes. *)
Theorem stream_id_exists_after_put (d : gmap string value) (key k' : DIMKey)
    (b : bytes) (sid : string) :
  stream_id key = Some sid ->
  obj_id k' = sid ->
  let d' := (put (Some key) b d).2 in
  exists_ (Some k') d' = (Ok true, d') /\
  (d !! sid = None -> obj_id key <> sid ->
   put (Some key) b d = (Ok tt, d') /\
   d' !! sid = Some (Stream (mkProxyStream [obj_id key] ∅ false)) /\
   forall b', d' !! sid <> Some (Bytes b')).
Proof.
  intros Hsid Hk' d'. split.
  - apply exists_true. rewrite Hk'. by apply put_stream_entry.
  - intros Hd Hne. unfold d'. rewrite (put_creates_stream _ _ _ _ Hsid Hd).
    cbn [snd]. split; [done|].
    rewrite lookup_insert_ne by done. rewrite lookup_insert_eq.
    split; [done|]. intros b'. discriminate.
Qed.

Lemma stream_id_exists_after_put_witness :
  stream_id Example.packet_key = Some "s" /\
  obj_id Example.stream_key = "s" /\
  exists_ (Some Example.stream_key)
          (put (Some Example.packet_key) Example.payload ∅).2
    = (Ok true, (put (Some Example.packet_key) Example.payload ∅).2).
Proof.
  split; [reflexivity|]. split; [reflexivity|].
  apply (stream_id_exists_after_put ∅ Example.packet_key Example.stream_key
           Example.payload "s"); reflexivity.
Defined.

(** C10. [get] and [evict] on a key whose [stream_id] has no entry in the
    store raise [KeyError] and leave the store as it was; [handle_rpc]
    returns the error in the [exception] field of its response. An [evict]
    of an absent key without [stream_id] returns normally and changes
    nothing. *)
Theorem missing_stream_is_key_error (d : gmap string value) (key : DIMKey)
    (host : option string) :
  (forall sid, stream_id key = Some sid -> d !! sid = None ->
     get (Some key) host d = (Raise (KeyError sid), d) /\
     evict (Some key) d = (Raise (KeyError sid), d) /\
     handle_rpc (mkRPC "get" (Some key) None host) d
       = (Ok (failure (mkRPC "get" (Some key) None host) (KeyError sid)), d) /\
     handle_rpc (mkRPC "evict" (Some key) None host) d
       = (Ok (failure (mkRPC "evict" (Some key) None host) (KeyError sid)), d))
  /\
  (stream_id key = None -> d !! obj_id key = None ->
     evict (Some key) d = (Ok tt, d) /\
     handle_rpc (mkRPC "evict" (Some key) None host) d
       = (Ok (ack (mkRPC "evict" (Some key) None host)), d)).
Proof.
  split.
  - intros sid Hsid Hd.
    pose proof (missing_stream_get key sid host d Hsid Hd) as Hg.
    pose proof (missing_stream_evict key sid d Hsid Hd) as He.
    split; [done|]. split; [done|]. split.
    + apply handle_rpc_raise. rewrite dispatch_get. unfold bind.
      by rewrite Hg.
    + apply handle_rpc_raise. rewrite dispatch_evict. unfold bind.
      by rewrite He.
  - intros Hsid Hd.
    assert (evict (Some key) d = (Ok tt, d)) as He.
    { rewrite (evict_plain _ _ Hsid). by rewrite delete_id. }
    split; [done|].
    apply handle_rpc_ok. rewrite dispatch_evict. unfold bind.
    by rewrite He.
Qed.

Lemma missing_stream_is_key_error_witness :
  (stream_id Example.stream_key = Some "s" /\
   (∅ : gmap string value) !! "s" = None /\
   get (Some Example.stream_key) (Some "client") ∅
     = (Raise (KeyError "s"), ∅) /\
   evict (Some Example.stream_key) ∅ = (Raise (KeyError "s"), ∅)) /\
  (stream_id Example.plain_key = None /\
   (∅ : gmap string value) !! obj_id Example.plain_key = None /\
   evict (Some Example.plain_key) ∅ = (Ok tt, ∅)).
Proof.
  split.
  - split; [reflexivity|]. split; [reflexivity|].
    destruct (missing_stream_is_key_error ∅ Example.stream_key
                (Some "client")) as [Hs _].
    assert ((∅ : gmap string value) !! "s" = None) as Hd by reflexivity.
    destruct (Hs "s" eq_refl Hd) as (Hg & He & _). by split.
  - split; [reflexivity|]. split; [reflexivity|].
    destruct (missing_stream_is_key_error ∅ Example.plain_key None)
      as [_ Hp].
    assert ((∅ : gmap string value) !! obj_id Example.plain_key = None)
      as Hd by reflexivity.
    destruct (Hp eq_refl Hd) as [He _]. exact He.
Defined.

End ServerClaims.

(** * Properties of the connector, in any world *)

Section ConnectorProperties.
Context {W : Type} `{Host W}.
Import ZeroMQConnector Statements.

Lemma map_m_cons_ok {A B} (f : A -> M W B) x xs w y w1 ys w2 :
  f x w = (Ok y, w1) ->
  map_m f xs w1 = (Ok ys, w2) ->
  map_m f (x :: xs) w = (Ok (y :: ys), w2).
Proof.
  intros Hx Hxs. cbn [map_m]. unfold bind at 1. rewrite Hx.
  unfold bind at 1. by rewrite Hxs.
Qed.

Lemma map_m_cons_inv {A B} (f : A -> M W B) x xs w rs w2 :
  map_m f (x :: xs) w = (Ok rs, w2) ->
  exists y w1 ys,
    f x w = (Ok y, w1) /\ map_m f xs w1 = (Ok ys, w2) /\ rs = y :: ys.
Proof.
  cbn [map_m]. unfold bind at 1.
  destruct (f x w) as [[y| |] w1] eqn:Hx; try discriminate.
  unfold bind at 1.
  destruct (map_m f xs w1) as [[ys| |] w2'] eqn:Hxs; try discriminate.
  unfold ret. intros [= <- <-]. by exists y, w1, ys.
Qed.

(** The loop stops at the first turn that raises. *)
Lemma map_m_raise {A B} (f : A -> M W B) pre x post w rs w1 e w2 :
  map_m f pre w = (Ok rs, w1) ->
  f x w1 = (Raise e, w2) ->
  map_m f (pre ++ x :: post) w = (Raise e, w2).
Proof.
  revert w rs. induction pre as [|p pre IH]; intros w rs Hpre Hx.
  - cbn in Hpre. injection Hpre as <- <-.
    cbn [app map_m]. unfold bind at 1. by rewrite Hx.
  - apply map_m_cons_inv in Hpre as (y & w' & ys & Hp & Hpre & ->).
    cbn [app map_m]. unfold bind at 1. rewrite Hp.
    unfold bind at 1. by rewrite (IH _ _ Hpre Hx).
Qed.

(** The check of [response.exception] in [_send_rpcs]. *)
Lemma send_rpc_raises self rpc w response w' e :
  answered self rpc w response w' ->
  r_exception response = Some e ->
  send_rpc self rpc w = (Raise e, w').
Proof.
  intros (k & w1 & Hk & Hsend & Hrecv) He.
  unfold send_rpc, key_of. rewrite Hk.
  unfold bind at 1, ret at 1. unfold bind at 1. rewrite Hsend.
  unfold bind at 1. rewrite Hrecv. by rewrite He.
Qed.

Lemma send_rpcs_raise self pre rpc post w rs w1 response w2 e :
  _send_rpcs self pre w = (Ok rs, w1) ->
  answered self rpc w1 response w2 ->
  r_exception response = Some e ->
  _send_rpcs self (pre ++ rpc :: post) w = (Raise e, w2).
Proof.
  intros Hpre Hans He. unfold _send_rpcs in *.
  eapply map_m_raise; [exact Hpre|]. by eapply send_rpc_raises.
Qed.

(** Whatever a call does with the responses, a reported failure ends it. *)
Lemma raises_reported_bind {A} self rpcs w
    (k : list RPCResponse -> M W A) :
  raises_reported self rpcs w ((let* rs := _send_rpcs self rpcs in k rs) w).
Proof.
  intros pre rpc post rs w1 response w2 e -> Hpre Hans He.
  unfold bind. by rewrite (send_rpcs_raise _ _ _ _ _ _ _ _ _ _ Hpre Hans He).
Qed.

Lemma put_unfold self obj key w id w1 :
  uuid4 w = (Ok id, w1) ->
  put self obj key w
  = (_send_rpcs self
       [mkRPC "put"
          (Some (mkDIMKey "zmq" id (len obj) (address self) (port self)
                          (key ≫= stream_id)))
          (Some obj) None];;
     ret key) w1.
Proof.
  intros Hid. unfold put. unfold bind at 1.
  destruct key as [k|]; unfold bind at 1; rewrite Hid; reflexivity.
Qed.

(** [put] hands back the [key] it was given. *)
Lemma put_returns_its_argument self obj key w r w' :
  put self obj key w = (Ok r, w') -> r = key.
Proof.
  unfold put. unfold bind at 1.
  destruct (_ w) as [[data_key| |] w1]; try discriminate.
  unfold bind at 1.
  destruct (_send_rpcs _ _ w1) as [[rs| |] w2]; try discriminate.
  unfold ret. by intros [= <- _].
Qed.

Lemma put_batch_unfold self objs key w keys w1 :
  map_m (batch_key self key) objs w = (Ok keys, w1) ->
  put_batch self objs key w
  = (_send_rpcs self (batch_rpcs keys objs);; ret keys) w1.
Proof. intros Hkeys. unfold put_batch. unfold bind at 1. by rewrite Hkeys. Qed.

Lemma config_dom self :
  dom (config self)
  = ({["port"; "address"; "interface"; "chunk_length"; "timeout"]}
       : gset string).
Proof.
  unfold config. rewrite !dom_insert_L, dom_empty_L. set_solver.
Qed.

Lemma from_config_config self :
  from_config (config self)
  = __init__ (port self) (_address self) (_interface self)
             (Some (chunk_length self)) (timeout self).
Proof.
  unfold from_config. rewrite config_dom.
  rewrite bool_decide_eq_true_2 by done. cbn [negb].
  unfold keyword, config. simplify_map_eq.
  destruct (_address self), (_interface self); reflexivity.
Qed.

(** What [__init__] stores of its arguments. *)
Lemma init_fields p a i c t w self w' :
  __init__ p a i c t w = (Ok self, w') ->
  _address self = a /\ _interface self = i /\ port self = p /\
  chunk_length self = default MAX_CHUNK_LENGTH_DEFAULT c /\
  timeout self = t.
Proof.
  unfold __init__. unfold bind at 1.
  destruct (uuid4 w) as [[id| |] w1]; try discriminate.
  unfold bind at 1.
  destruct (resolve_address a i w1) as [[addr| |] w2]; try discriminate.
  unfold bind at 1.
  destruct (try_except _ _ w2) as [[srv| |] w3]; try discriminate.
  unfold bind at 1.
  destruct (zmq_socket w3) as [[[]| |] w4]; try discriminate.
  unfold ret. intros [= <- <-]. cbn. by destruct c.
Qed.

(** Construction when the probe is answered: the connector attaches. *)
Lemma init_attach p a i c t w id w1 addr w2 w3 w4 :
  uuid4 w = (Ok id, w1) ->
  resolve_address a i w1 = (Ok addr, w2) ->
  wait_for_server addr p t w2 = (Ok tt, w3) ->
  zmq_socket w3 = (Ok tt, w4) ->
  __init__ p a i c t w
  = (Ok (mkZeroMQConnector a i id p (default MAX_CHUNK_LENGTH_DEFAULT c) t
                           addr None), w4).
Proof.
  intros Hid Haddr Hprobe Hsock. unfold __init__.
  unfold bind at 1. rewrite Hid. unfold bind at 1. rewrite Haddr.
  unfold bind at 1, try_except at 1. unfold bind at 1. rewrite Hprobe.
  unfold ret at 1. unfold bind at 1. rewrite Hsock.
  by destruct c.
Qed.

(** Construction when the probe times out and the spawned server answers. *)
Lemma init_spawn p a i c t w id w1 addr w2 w3 proc w4 w5 w6 w7 :
  uuid4 w = (Ok id, w1) ->
  resolve_address a i w1 = (Ok addr, w2) ->
  wait_for_server addr p t w2 = (Raise ServerTimeoutError, w3) ->
  process_start addr p (Some (default MAX_CHUNK_LENGTH_DEFAULT c)) w3
    = (Ok proc, w4) ->
  atexit_register proc (Some 1%Q) w4 = (Ok tt, w5) ->
  wait_for_server addr p t w5 = (Ok tt, w6) ->
  zmq_socket w6 = (Ok tt, w7) ->
  __init__ p a i c t w
  = (Ok (mkZeroMQConnector a i id p (default MAX_CHUNK_LENGTH_DEFAULT c) t
                           addr (Some proc)), w7).
Proof.
  intros Hid Haddr Hprobe Hstart Hexit Hprobe' Hsock. unfold __init__.
  unfold bind at 1. rewrite Hid. unfold bind at 1. rewrite Haddr.
  unfold bind at 1, try_except at 1. unfold bind at 1. rewrite Hprobe.
  unfold bind at 1, spawn_server at 1.
  assert (match c with Some n => n | None => MAX_CHUNK_LENGTH_DEFAULT end
          = default MAX_CHUNK_LENGTH_DEFAULT c) as -> by by destruct c.
  unfold bind at 1. rewrite Hstart.
  unfold bind at 1. rewrite Hexit.
  unfold bind at 1. rewrite Hprobe'.
  unfold ret at 1 2. unfold bind at 1. by rewrite Hsock.
Qed.

Lemma close_without_process self kill w :
  server self = None ->
  close self kill w = (sock_close;; context_term) w.
Proof.
  intros Hsrv. unfold close. rewrite Hsrv. by destruct kill.
Qed.

End ConnectorProperties.

Section ConnectorClaims.
Context {W : Type} `{Host W}.
Import ZeroMQConnector Statements.

(** C5. Every operation of the connector raises the failure the server
    reports: for [evict], [exists], [get], [get_batch], [put] and
    [put_batch], as soon as the response to one of the requests of the call
    carries an exception [e] (the requests before it having been answered
    without one), the call raises [e] and returns no value. *)
Theorem connector_raises_reported_failures (self : ZeroMQConnector) (w : W) :
  (forall key,
     raises_reported self [mkRPC "evict" key None (Some (_client_id self))]
       w (evict self key w)) /\
  (forall key,
     raises_reported self [mkRPC "exists" key None None]
       w (exists_ self key w)) /\
  (forall key,
     raises_reported self [mkRPC "get" key None (Some (_client_id self))]
       w (get self key w)) /\
  (forall keys,
     raises_reported self
       (map (fun key => mkRPC "get" key None (Some (_client_id self))) keys)
       w (get_batch self keys w)) /\
  (forall obj key id w1,
     uuid4 w = (Ok id, w1) ->
     raises_reported self
       [mkRPC "put"
          (Some (mkDIMKey "zmq" id (len obj) (address self) (port self)
                          (key ≫= stream_id)))
          (Some obj) None]
       w1 (put self obj key w)) /\
  (forall objs key keys w1,
     map_m (batch_key self key) objs w = (Ok keys, w1) ->
     raises_reported self (batch_rpcs keys objs)
       w1 (put_batch self objs key w)).
Proof.
  repeat split.
  - intros key. apply raises_reported_bind.
  - intros key. apply raises_reported_bind.
  - intros key. apply raises_reported_bind.
  - intros keys. apply raises_reported_bind.
  - intros obj key id w1 Hid. rewrite (put_unfold _ _ _ _ _ _ Hid).
    apply raises_reported_bind.
  - intros objs key keys w1 Hkeys.
    rewrite (put_batch_unfold _ _ _ _ _ _ Hkeys).
    apply raises_reported_bind.
Qed.

(** C7. [config] has exactly the keys address, interface, port,
    chunk_length and timeout; [from_config] on it is [__init__] on the
    original's parameters, so every connector it constructs has the
    original's address, interface, port, chunk_length and timeout, and it
    does construct one whenever the probe is answered. *)
Theorem config_round_trip (self : ZeroMQConnector) :
  dom (config self)
    = ({["address"; "interface"; "port"; "chunk_length"; "timeout"]}
         : gset string) /\
  from_config (W := W) (config self)
    = __init__ (port self) (_address self) (_interface self)
               (Some (chunk_length self)) (timeout self) /\
  (forall w self' w',
     from_config (config self) w = (Ok self', w') ->
     _address self' = _address self /\
     _interface self' = _interface self /\
     port self' = port self /\
     chunk_length self' = chunk_length self /\
     timeout self' = timeout self) /\
  (forall w id w1 addr w2 w3 w4,
     uuid4 w = (Ok id, w1) ->
     resolve_address (_address self) (_interface self) w1 = (Ok addr, w2) ->
     wait_for_server addr (port self) (timeout self) w2 = (Ok tt, w3) ->
     zmq_socket w3 = (Ok tt, w4) ->
     from_config (config self) w
     = (Ok (mkZeroMQConnector (_address self) (_interface self) id
              (port self) (chunk_length self) (timeout self) addr None),
        w4)).
Proof.
  split; [rewrite config_dom; set_solver|].
  split; [apply from_config_config|].
  split.
  - intros w self' w'. rewrite from_config_config.
    intros Hinit. by apply init_fields in Hinit.
  - intros w id w1 addr w2 w3 w4 Hid Haddr Hprobe Hsock.
    rewrite from_config_config.
    by rewrite (init_attach _ _ _ _ _ _ _ _ _ _ _ _ Hid Haddr Hprobe Hsock).
Qed.

(** C8. A connector constructed while the probe was answered holds no
    process handle, and its [close], whatever [kill_server] is, is
    [socket.close()] followed by [context.term()] and nothing else: no
    process is terminated. *)
Theorem close_spares_attached_server (p : Z) (a i : option string)
    (c : option Z) (t : Q) (w w1 w2 w3 w4 : W) (id addr : string) :
  uuid4 w = (Ok id, w1) ->
  resolve_address a i w1 = (Ok addr, w2) ->
  wait_for_server addr p t w2 = (Ok tt, w3) ->
  zmq_socket w3 = (Ok tt, w4) ->
  exists self,
    __init__ p a i c t w = (Ok self, w4) /\
    server self = None /\
    forall kill_server w',
      close self kill_server w' = (sock_close;; context_term) w'.
Proof.
  intros Hid Haddr Hprobe Hsock. eexists. split.
  - by apply (init_attach _ _ _ _ _ _ _ _ _ _ _ _ Hid Haddr Hprobe Hsock).
  - split; [reflexivity|]. intros kill w'.
    by apply close_without_process.
Qed.

End ConnectorClaims.

(** * The connector against its own server *)

Section WorldProperties.
Import ZeroMQConnector Statements.

Implicit Types (w : World) (d : gmap string value) (k : DIMKey).

(** One request, answered by the server at the key's endpoint. *)
Lemma exchange self rpc k d response d' w :
  key rpc = Some k ->
  servers w !! (peer_host k, peer_port k) = Some (Serving d) ->
  inbox w = [] ->
  ZeroMQServer.handle_rpc rpc d = (Ok response, d') ->
  r_exception response = None ->
  r_operation response = operation rpc ->
  r_key response = key rpc ->
  send_rpc self rpc w
  = (Ok response, exchanged (peer_host k) (peer_port k) rpc response d' w).
Proof.
  intros Hk Hsrv Hin Hh Hexc Hop Hkey.
  unfold send_rpc, key_of. rewrite Hk.
  unfold bind at 1, ret at 1. unfold bind at 1.
  cbn [sock_send sock_recv World.host].
  unfold World.w_sock_send. cbn [servers World.record].
  rewrite Hsrv, Hh. unfold bind at 1, World.w_sock_recv.
  cbn [inbox World.set_inbox World.set_servers World.record].
  rewrite Hin. cbn [app]. rewrite Hexc, Hop, Hkey.
  rewrite String.eqb_refl. cbn [negb].
  rewrite bool_decide_eq_true_2 by done. cbn [negb].
  unfold ret, exchanged, World.record, World.set_inbox, World.set_servers.
  cbn. by rewrite <- app_assoc.
Qed.

Lemma exchanged_servers host port rpc response d' w :
  servers (exchanged host port rpc response d' w) !! (host, port)
  = Some (Serving d').
Proof. cbn. apply lookup_insert_eq. Qed.

Lemma handle_put_plain k b d :
  stream_id k = None ->
  ZeroMQServer.handle_rpc (put_rpc (k, b)) d
  = (Ok (ack (put_rpc (k, b))), <[obj_id k := Bytes b]> d).
Proof.
  intros Hsid. apply handle_rpc_ok. unfold put_rpc. rewrite dispatch_put.
  cbn [fst snd]. unfold ZeroMQServer.put, ZeroMQServer.attr_of.
  unfold bind at 1. unfold bind at 1, ret at 1. by rewrite Hsid.
Qed.

Lemma handle_get_plain self k d :
  stream_id k = None ->
  ZeroMQServer.handle_rpc (get_rpc self k) d = (Ok (found d k), d).
Proof.
  intros Hsid. apply handle_rpc_ok. unfold get_rpc. rewrite dispatch_get.
  unfold ZeroMQServer.get, ZeroMQServer.attr_of.
  unfold bind at 1. unfold bind at 1, ret at 1. by rewrite Hsid.
Qed.

(** A run of [put] requests for plain keys of the connector's server: each
    is acknowledged before the next goes out, and the store takes the
    payloads in order. *)
Lemma send_puts self (kos : list (DIMKey * bytes)) w d :
  servers w !! (address self, port self) = Some (Serving d) ->
  inbox w = [] ->
  Forall (fun ko => own_plain self ko.1) kos ->
  exists w',
    _send_rpcs self (map put_rpc kos) w
      = (Ok (map (fun ko => ack (put_rpc ko)) kos), w') /\
    servers w' !! (address self, port self)
      = Some (Serving (store_all kos d)) /\
    inbox w' = [] /\
    log w' = (log w ++ one_at_a_time self (map put_rpc kos))%list.
Proof.
  revert w d. induction kos as [|[k b] kos IH]; intros w d Hsrv Hin Hall.
  - exists w. cbn. by rewrite app_nil_r.
  - apply Forall_cons in Hall as [(Hsid & Hhost & Hport) Hall].
    cbn [fst] in *.
    pose proof (exchange self (put_rpc (k, b)) k d (ack (put_rpc (k, b)))
                  (<[obj_id k := Bytes b]> d) w eq_refl) as Hx.
    rewrite Hhost, Hport in Hx.
    specialize (Hx Hsrv Hin (handle_put_plain k b d Hsid)
                   eq_refl eq_refl eq_refl).
    destruct (IH (exchanged (address self) (port self) (put_rpc (k, b))
                    (ack (put_rpc (k, b))) (<[obj_id k := Bytes b]> d) w)
                 (<[obj_id k := Bytes b]> d))
      as (w' & Hrest & Hsrv' & Hin' & Hlog'); try done.
    { apply exchanged_servers. }
    exists w'. split; [|split; [|split]]; try done.
    + unfold _send_rpcs in *. cbn [map].
      by apply (map_m_cons_ok _ _ _ _ _ _ _ _ Hx Hrest).
    + rewrite Hlog'. cbn [log exchanged map one_at_a_time flat_map].
      by rewrite <- app_assoc.
Qed.


End WorldProperties.

Section BatchProperties.
Import ZeroMQConnector Statements.

Implicit Types (w : World) (d : gmap string value) (k : DIMKey).

Lemma fresh_keys_length self sid ids start objs :
  length (fresh_keys self sid ids start objs) = length objs.
Proof.
  revert start. induction objs as [|o objs IH]; intros start; cbn; [done|].
  by rewrite IH.
Qed.



Lemma fresh_keys_own_plain self ids start objs :
  Forall (own_plain self) (fresh_keys self None ids start objs).
Proof.
  revert start. induction objs as [|o objs IH]; intros start; cbn.
  - constructor.
  - constructor; [by repeat split|apply IH].
Qed.

(** The first comprehension of [put_batch] draws one id per payload and
    touches nothing else. *)
Lemma batch_keys self k objs w :
  exists w',
    map_m (batch_key self (Some k)) objs w
      = (Ok (fresh_keys self (stream_id k) (uuids w) (drawn w) objs), w') /\
    servers w' = servers w /\ inbox w' = inbox w /\ log w' = log w.
Proof.
  revert w. induction objs as [|o objs IH]; intros w.
  - by exists w.
  - destruct (IH (World.set_drawn S w)) as (w' & Hrest & Hs & Hi & Hl).
    exists w'. split; [|by split].
    cbn [fresh_keys].
    eapply (map_m_cons_ok (W := World)); [|exact Hrest]. reflexivity.
Qed.

Lemma batch_rpcs_put_rpc (keys : list DIMKey) (objs : list bytes) :
  batch_rpcs keys objs
  = map put_rpc (flat_map (fun _ => zip keys objs) keys).
Proof.
  unfold batch_rpcs. generalize (zip keys objs) as kos. intros kos.
  induction keys as [|k keys IH]; cbn [flat_map]; [done|].
  rewrite map_app. by rewrite IH.
Qed.

(** The second comprehension builds a request for every pair of a key and
    a pair of [zip]. *)
Lemma batch_rpcs_length (keys : list DIMKey) (objs : list bytes) :
  length (batch_rpcs keys objs)
  = (length keys * length (zip keys objs))%nat.
Proof.
  unfold batch_rpcs. generalize (zip keys objs) as kos. intros kos.
  induction keys as [|k keys IH]; cbn [flat_map length]; [done|].
  rewrite length_app, length_map, IH. lia.
Qed.

Lemma store_all_cons (ko : DIMKey * bytes) kos d :
  store_all (ko :: kos) d = store_all kos (<[obj_id ko.1 := Bytes ko.2]> d).
Proof. reflexivity. Qed.




End BatchProperties.

Section WorldClaims.
Import ZeroMQConnector Statements.

(** C1, on the code: [put] without a key returns [None], its own argument,
    not the key it built; the payload does reach the server under the
    fresh id, but [get] of what [put] returned raises [AttributeError]
    before any request is sent, so the claim fails. *)
Theorem put_without_key_returns_none :
  (put Example.c0 Example.payload None Example.w0).1 = Ok None /\
  servers (put Example.c0 Example.payload None Example.w0).2
    !! ("10.0.0.1", 5555)
    = Some (Serving {["u" := Bytes Example.payload]}) /\
  get Example.c0 None (put Example.c0 Example.payload None Example.w0).2
    = (Raise (AttributeError "NoneType" "peer_host"),
       (put Example.c0 Example.payload None Example.w0).2) /\
  (get Example.c0 (Some (mkDIMKey "zmq" "u" 3 "10.0.0.1" 5555 None))
       (put Example.c0 Example.payload None Example.w0).2).1
    = Ok (Some (Bytes Example.payload)) /\
  ~ put_as_specified Example.c0 Example.payload Example.w0.
Proof.
  split; [vm_compute; reflexivity|].
  split; [vm_compute; reflexivity|].
  split; [reflexivity|].
  split; [vm_compute; reflexivity|].
  intros (k & w' & Hput & _).
  apply (put_returns_its_argument (W := World)) in Hput. discriminate.
Qed.

(** C5 on a run: [get] of a key of a stream the server never saw raises the
    [KeyError] the server reported. *)
Lemma connector_raises_reported_failures_witness :
  exists w',
    answered Example.c0
      (mkRPC "get" (Some Example.stream_key) None (Some "client"))
      Example.w0
      (failure (mkRPC "get" (Some Example.stream_key) None (Some "client"))
               (KeyError "s"))
      w' /\
    get Example.c0 (Some Example.stream_key) Example.w0
      = (Raise (KeyError "s"), w').
Proof.
  eexists.
  assert (answered Example.c0
      (mkRPC "get" (Some Example.stream_key) None (Some "client"))
      Example.w0
      (failure (mkRPC "get" (Some Example.stream_key) None (Some "client"))
               (KeyError "s"))
      (sock_recv
         (sock_send "10.0.0.1" 5555 65536
            (mkRPC "get" (Some Example.stream_key) None (Some "client"))
            Example.w0).2).2) as Hans.
  { exists Example.stream_key. eexists. split; [reflexivity|].
    split; reflexivity. }
  split; [exact Hans|].
  destruct (connector_raises_reported_failures Example.c0 Example.w0)
    as (_ & _ & Hget & _).
  apply (Hget (Some Example.stream_key) [] _ [] [] Example.w0 _ _
              (KeyError "s") eq_refl eq_refl Hans eq_refl).
Defined.

(** C7 on a run: reconstructing the example connector from its
    configuration, with its server alive. *)
Lemma config_round_trip_witness :
  from_config (config Example.c0) Example.w0
  = (Ok (mkZeroMQConnector (Some "10.0.0.1") None "u" 5555 65536 1%Q
                           "10.0.0.1" None),
     World.set_drawn S Example.w0).
Proof.
  destruct (config_round_trip (W := World) Example.c0) as (_ & _ & _ & Hrun).
  apply (Hrun Example.w0 "u" (World.set_drawn S Example.w0) "10.0.0.1"
              (World.set_drawn S Example.w0) (World.set_drawn S Example.w0)
              (World.set_drawn S Example.w0));
    reflexivity.
Defined.

(** C8 on a run: the connector attaches to the live server, and its
    [close] leaves servers and processes as they were. *)
Lemma close_spares_attached_server_witness :
  exists self,
    __init__ 5555 (Some "10.0.0.1") None None 1%Q Example.w0
      = (Ok self, World.set_drawn S Example.w0) /\
    server self = None /\
    servers (close self true (World.set_drawn S Example.w0)).2
      = servers Example.w0 /\
    processes (close self true (World.set_drawn S Example.w0)).2
      = processes Example.w0.
Proof.
  set (w1 := World.set_drawn S Example.w0).
  assert (uuid4 Example.w0 = (Ok "u", w1)) as Hid by reflexivity.
  assert (resolve_address (Some "10.0.0.1") None w1 = (Ok "10.0.0.1", w1))
    as Haddr by reflexivity.
  assert (wait_for_server "10.0.0.1" 5555 1%Q w1 = (Ok tt, w1))
    as Hprobe by reflexivity.
  assert (zmq_socket w1 = (Ok tt, w1)) as Hsock by reflexivity.
  destruct (close_spares_attached_server 5555 (Some "10.0.0.1") None None
              1%Q _ _ _ _ _ _ _ Hid Haddr Hprobe Hsock)
    as (self & Hinit & Hsrv & Hclose).
  exists self. split; [exact Hinit|]. split; [exact Hsrv|].
  rewrite Hclose. split; reflexivity.
Defined.

End WorldClaims.

(** * Further properties of the server *)

Section ServerExtras.
Import ZeroMQServer Statements.

Implicit Types (d : gmap string value) (k : DIMKey) (s : ProxyStream).

Lemma put_plain key b d :
  stream_id key = None ->
  put (Some key) b d = (Ok tt, <[obj_id key := Bytes b]> d).
Proof.
  intros Hsid. unfold put, attr_of.
  unfold bind at 1. unfold bind at 1, ret at 1. by rewrite Hsid.
Qed.

Lemma get_plain key host d :
  stream_id key = None ->
  get (Some key) host d = (Ok (d !! obj_id key), d).
Proof.
  intros Hsid. unfold get, attr_of.
  unfold bind at 1, ret at 1. by rewrite Hsid.
Qed.

(** X1. [ZeroMQServer.put] of a key without [stream_id] stores the payload
    under the key's [obj_id], replacing whatever was there; [get] and
    [exists] of that key then find it, and the entries under other ids are
    the ones the store had. *)
Theorem server_put_then_get (d : gmap string value) (key : DIMKey)
    (b : bytes) (host : option string) :
  stream_id key = None ->
  let d' := <[obj_id key := Bytes b]> d in
  put (Some key) b d = (Ok tt, d') /\
  get (Some key) host d' = (Ok (Some (Bytes b)), d') /\
  exists_ (Some key) d' = (Ok true, d') /\
  (forall k', stream_id k' = None -> obj_id k' <> obj_id key ->
     get (Some k') host d' = (Ok (d !! obj_id k'), d')).
Proof.
  intros Hsid d'. split; [by apply put_plain|]. split.
  { rewrite (get_plain _ _ _ Hsid). unfold d'. by rewrite lookup_insert_eq. }
  split.
  { apply exists_true. unfold d'. by rewrite lookup_insert_eq. }
  intros k' Hsid' Hne. rewrite (get_plain _ _ _ Hsid').
  unfold d'. by rewrite lookup_insert_ne.
Qed.

Lemma server_put_then_get_witness :
  stream_id Example.plain_key = None /\
  put (Some Example.plain_key) Example.payload ∅
    = (Ok tt, {["k" := Bytes Example.payload]}) /\
  get (Some Example.plain_key) None {["k" := Bytes Example.payload]}
    = (Ok (Some (Bytes Example.payload)), {["k" := Bytes Example.payload]}).
Proof.
  split; [reflexivity|].
  destruct (server_put_then_get ∅ Example.plain_key Example.payload None
              eq_refl) as (Hput & Hget & _).
  split; [exact Hput|exact Hget].
Defined.

(** X2. [ZeroMQServer.evict] of a key without [stream_id] removes the entry
    under its [obj_id] and nothing else: afterwards [exists] is false and
    [get] returns [None] for that key, a second [evict] changes nothing,
    and every other id keeps its entry. *)
Theorem server_evict_plain (d : gmap string value) (key : DIMKey)
    (host : option string) :
  stream_id key = None ->
  let d' := delete (obj_id key) d in
  evict (Some key) d = (Ok tt, d') /\
  exists_ (Some key) d' = (Ok false, d') /\
  get (Some key) host d' = (Ok None, d') /\
  evict (Some key) d' = (Ok tt, d') /\
  (forall id, id <> obj_id key -> d' !! id = d !! id).
Proof.
  intros Hsid d'. split; [by apply evict_plain|]. split.
  { apply exists_false. unfold d'. apply lookup_delete_eq. }
  split.
  { rewrite (get_plain _ _ _ Hsid). unfold d'. by rewrite lookup_delete_eq. }
  split.
  { rewrite (evict_plain _ _ Hsid). unfold d'. by rewrite delete_delete_eq. }
  intros id Hne. unfold d'. by rewrite lookup_delete_ne.
Qed.

Lemma server_evict_plain_witness :
  stream_id Example.plain_key = None /\
  evict (Some Example.plain_key) {["k" := Bytes Example.payload]}
    = (Ok tt, delete "k" {["k" := Bytes Example.payload]}) /\
  get (Some Example.plain_key) None
      (delete "k" {["k" := Bytes Example.payload]})
    = (Ok None, delete "k" {["k" := Bytes Example.payload]}).
Proof.
  split; [reflexivity|].
  destruct (server_evict_plain {["k" := Bytes Example.payload]}
              Example.plain_key None eq_refl) as (Hev & _ & Hget & _).
  split; [exact Hev|exact Hget].
Defined.

(** X3. A request whose operation is none of exists, evict, get and put
    reaches the [raise AssertionError('Unreachable.')] of [handle_rpc]: the
    response carries that error and the store is untouched. *)
Theorem handle_rpc_unknown_operation (rpc : RPC) (d : gmap string value) :
  operation rpc <> "exists" ->
  operation rpc <> "evict" ->
  operation rpc <> "get" ->
  operation rpc <> "put" ->
  handle_rpc rpc d = (Ok (failure rpc (AssertionError "Unreachable.")), d).
Proof.
  intros H1 H2 H3 H4. apply handle_rpc_raise. unfold dispatch.
  apply String.eqb_neq in H1, H2, H3, H4.
  by rewrite H1, H2, H3, H4.
Qed.

Lemma handle_rpc_unknown_operation_witness :
  handle_rpc (mkRPC "delete" (Some Example.plain_key) None None)
             Example.d_stream
  = (Ok (failure (mkRPC "delete" (Some Example.plain_key) None None)
                 (AssertionError "Unreachable.")),
     Example.d_stream).
Proof.
  apply (handle_rpc_unknown_operation
           (mkRPC "delete" (Some Example.plain_key) None None));
    discriminate.
Defined.

Lemma dispatch_echoes rpc d r d' :
  dispatch rpc d = (Ok r, d') ->
  r_operation r = operation rpc /\ r_key r = key rpc /\
  r_exception r = None /\
  (operation rpc = "exists" -> is_Some (r_exists r)).
Proof.
  unfold dispatch.
  destruct (String.eqb_spec (operation rpc) "exists") as [He|He].
  { unfold bind.
    destruct (exists_ (key rpc) d) as [[b| |] d1]; try discriminate.
    unfold ret. intros [= <- <-]. by rewrite He. }
  destruct (String.eqb_spec (operation rpc) "evict") as [Hv|Hv].
  { unfold bind.
    destruct (evict (key rpc) d) as [[[]| |] d1]; try discriminate.
    unfold ret. intros [= <- <-]. by rewrite Hv. }
  destruct (String.eqb_spec (operation rpc) "get") as [Hg|Hg].
  { unfold bind.
    destruct (get (key rpc) (client_id rpc) d) as [[v| |] d1];
      try discriminate.
    unfold ret. intros [= <- <-]. by rewrite Hg. }
  destruct (String.eqb_spec (operation rpc) "put") as [Hp|Hp];
    [|discriminate].
  destruct (data rpc) as [b|]; [|discriminate].
  unfold bind.
  destruct (put (key rpc) b d) as [[[]| |] d1]; try discriminate.
  unfold ret. intros [= <- <-]. by rewrite Hp.
Qed.

(** X4. Every response of [handle_rpc] carries the operation and the key of
    its request, so the two [assert]s of [_send_rpcs] hold against this
    server; and a response to exists without exception has its [exists]
    field set, as the connector's [exists] asserts. *)
Theorem handle_rpc_echoes_request (rpc : RPC) (d d' : gmap string value)
    (r : RPCResponse) :
  handle_rpc rpc d = (Ok r, d') ->
  r_operation r = operation rpc /\
  r_key r = key rpc /\
  (operation rpc = "exists" -> r_exception r = None -> is_Some (r_exists r)).
Proof.
  unfold handle_rpc, try_except.
  destruct (dispatch rpc d) as [[r0|e|] d0] eqn:Hd; [| |discriminate].
  - intros [= <- <-]. apply dispatch_echoes in Hd as (? & ? & ? & ?).
    by repeat split; auto.
  - unfold ret. intros [= <- <-]. by repeat split.
Qed.

Lemma handle_rpc_echoes_request_witness :
  handle_rpc (mkRPC "exists" (Some Example.packet_key) None None)
             Example.d_stream
    = (Ok (mkRPCResponse "exists" (Some Example.packet_key) None (Some true)
                         None), Example.d_stream) /\
  r_key (mkRPCResponse "exists" (Some Example.packet_key) None (Some true)
                       None) = Some Example.packet_key.
Proof.
  assert (handle_rpc (mkRPC "exists" (Some Example.packet_key) None None)
                     Example.d_stream
          = (Ok (mkRPCResponse "exists" (Some Example.packet_key) None
                               (Some true) None), Example.d_stream))
    as Hh by reflexivity.
  split; [exact Hh|].
  by destruct (handle_rpc_echoes_request _ _ _ _ Hh) as (_ & Hkey & _).
Defined.

Lemma run_server_cons_request rpc rest d :
  run_server (Request rpc :: rest) d
  = (let* response := handle_rpc rpc in
     let* out := run_server rest in
     ret (Reply response :: out)) d.
Proof. reflexivity. Qed.

Lemma handle_rpc_echo rpc d r d' :
  handle_rpc rpc d = (Ok r, d') ->
  r_operation r = operation rpc /\ r_key r = key rpc.
Proof.
  unfold handle_rpc, try_except.
  destruct (dispatch rpc d) as [[r0|e|] d0] eqn:Hd; [| |discriminate].
  - intros [= <- <-]. by apply dispatch_echoes in Hd as (? & ? & _).
  - unfold ret. by intros [= <- <-].
Qed.

(** X5. For messages that deserialize to a ping or to a request, and
    replies that the transport takes (a positive chunk length): when the
    loop of [run_server] gets through its messages it has sent one reply
    per message, in the order of the messages, a pong for each ping and
    for each request a response that carries the operation and the key of
    that request; and a run of pings leaves the store untouched. *)
Theorem run_server_replies_in_order (msgs : list message)
    (d : gmap string value) :
  (forall out d',
     run_server msgs d = (Ok out, d') ->
     Forall2 (fun m r =>
                match m with
                | Ping => r = Pong
                | Request rpc =>
                    exists response,
                      r = Reply response /\
                      r_operation response = operation rpc /\
                      r_key response = key rpc
                end) msgs out) /\
  (Forall (fun m => m = Ping) msgs ->
   run_server msgs d = (Ok (map (fun _ => Pong) msgs), d)).
Proof.
  revert d. induction msgs as [|m msgs IH]; intros d.
  { split; [|done]. unfold run_server, ret. intros out d' [= <- _].
    constructor. }
  destruct m as [|rpc].
  - destruct (IH d) as (Hall & Hping).
    cbn [run_server]. unfold bind.
    destruct (run_server msgs d) as [[out| |] d1] eqn:Hrun.
    + split.
      * unfold ret. intros out' d' [= <- _]. constructor; [done|].
        by apply (Hall out d1).
      * intros Hp. apply Forall_cons in Hp as [_ Hp].
        specialize (Hping Hp). injection Hping as -> ->. reflexivity.
    + split; [discriminate|].
      intros Hp. apply Forall_cons in Hp as [_ Hp]. by specialize (Hping Hp).
    + split; [discriminate|].
      intros Hp. apply Forall_cons in Hp as [_ Hp]. by specialize (Hping Hp).
  - rewrite run_server_cons_request. unfold bind.
    destruct (handle_rpc rpc d) as [[r|e|] d1] eqn:Hh.
    + destruct (IH d1) as (Hall & _).
      destruct (run_server msgs d1) as [[out| |] d2] eqn:Hrun.
      * split.
        -- unfold ret. intros out' d' [= <- _]. constructor.
           ++ exists r. split; [done|]. by eapply handle_rpc_echo.
           ++ by apply (Hall out d2).
        -- intros Hp. by apply Forall_cons in Hp as [? _].
      * split; [discriminate|].
        intros Hp. by apply Forall_cons in Hp as [? _].
      * split; [discriminate|].
        intros Hp. by apply Forall_cons in Hp as [? _].
    + split; [discriminate|].
      intros Hp. by apply Forall_cons in Hp as [? _].
    + split; [discriminate|].
      intros Hp. by apply Forall_cons in Hp as [? _].
Qed.

Lemma run_server_replies_in_order_witness :
  Forall (fun m => m = Ping) [Ping; Ping] /\
  run_server [Ping; Ping] Example.d_stream
    = (Ok [Pong; Pong], Example.d_stream) /\
  Forall2 (fun m r =>
             match m with
             | Ping => r = Pong
             | Request rpc =>
                 exists response,
                   r = Reply response /\
                   r_operation response = operation rpc /\
                   r_key response = key rpc
             end)
          [Ping; Request (mkRPC "exists" (Some Example.packet_key) None None)]
          [Pong; Reply (mkRPCResponse "exists" (Some Example.packet_key) None
                                      (Some true) None)].
Proof.
  assert (Forall (fun m => m = Ping) [Ping; Ping]) as Hall
    by (repeat constructor).
  assert (run_server
            [Ping; Request (mkRPC "exists" (Some Example.packet_key) None
                                  None)] Example.d_stream
          = (Ok [Pong; Reply (mkRPCResponse "exists"
                                (Some Example.packet_key) None (Some true)
                                None)], Example.d_stream)) as Hrun
    by reflexivity.
  split; [exact Hall|]. split.
  - destruct (run_server_replies_in_order [Ping; Ping] Example.d_stream)
      as (_ & Hping).
    exact (Hping Hall).
  - destruct (run_server_replies_in_order
                [Ping; Request (mkRPC "exists" (Some Example.packet_key)
                                      None None)] Example.d_stream)
      as (Hord & _).
    exact (Hord _ _ Hrun).
Defined.

(** X7. Streams and payloads share [self.data]: when the entry under a
    key's [stream_id] is a payload, [put], [get] and [evict] of that key
    fail with [AttributeError] on the first stream method they call, and
    leave the store as it was ([put] stores nothing). *)
Theorem stream_id_naming_bytes (d : gmap string value) (key : DIMKey)
    (sid : string) (b0 b : bytes) (host : option string) :
  stream_id key = Some sid ->
  d !! sid = Some (Bytes b0) ->
  put (Some key) b d = (Raise (AttributeError "bytes" "append"), d) /\
  get (Some key) host d = (Raise (AttributeError "bytes" "connect"), d) /\
  evict (Some key) d = (Raise (AttributeError "bytes" "end_stream"), d).
Proof.
  intros Hsid Hd. repeat split.
  - unfold put, attr_of. unfold bind at 1, ret at 1. rewrite Hsid.
    unfold bind at 1. unfold bind at 1, get_state at 1.
    unfold bind at 1. by rewrite Hd.
  - unfold get, attr_of. unfold bind at 1, ret at 1. rewrite Hsid.
    unfold bind at 1, subscript at 1. by rewrite Hd.
  - unfold evict, attr_of. unfold bind at 1, ret at 1. rewrite Hsid.
    unfold bind at 1. unfold bind at 1, subscript at 1. by rewrite Hd.
Qed.

Lemma stream_id_naming_bytes_witness :
  stream_id Example.stream_key = Some "s" /\
  ({["s" := Bytes Example.payload]} : gmap string value) !! "s"
    = Some (Bytes Example.payload) /\
  put (Some Example.stream_key) Example.payload
      {["s" := Bytes Example.payload]}
    = (Raise (AttributeError "bytes" "append"),
       {["s" := Bytes Example.payload]}).
Proof.
  assert (({["s" := Bytes Example.payload]} : gmap string value) !! "s"
          = Some (Bytes Example.payload)) as Hd by reflexivity.
  split; [reflexivity|]. split; [exact Hd|].
  by destruct (stream_id_naming_bytes _ Example.stream_key "s"
                 Example.payload Example.payload None eq_refl Hd)
    as (Hput & _).
Defined.

End ServerExtras.

Section StreamExtras.
Import ZeroMQServer Statements.

Implicit Types (d : gmap string value) (k : DIMKey) (s : ProxyStream).

(** The stream branch of [get]: the client is registered, its next id is
    taken from the stream and looked up in the store. *)
Lemma get_stream_next key sid s host uid d :
  stream_id key = Some sid ->
  d !! sid = Some (Stream s) ->
  proxy_uuids s !! default 0%nat (cursors s !! host) = Some uid ->
  get (Some key) host d
  = (Ok (<[sid := Stream (mkProxyStream (proxy_uuids s)
                    (<[host := S (default 0%nat (cursors s !! host))]>
                       (cursors s))
                    (ended s))]> d !! uid),
     <[sid := Stream (mkProxyStream (proxy_uuids s)
                    (<[host := S (default 0%nat (cursors s !! host))]>
                       (cursors s))
                    (ended s))]> d).
Proof.
  intros Hsid Hd Hnext. unfold get, attr_of.
  unfold bind at 1, ret at 1. rewrite Hsid.
  unfold bind at 1, subscript at 1. rewrite Hd.
  unfold bind at 1, call_method at 1. rewrite Hd.
  unfold ProxyStream.connect.
  destruct (cursors s !! host) as [c|] eqn:Hc; cbn [default from_option id] in *.
  - unfold bind at 1, call_method at 1. rewrite lookup_insert_eq.
    unfold ProxyStream.next_data. rewrite Hc. cbn [default from_option id]. cbv zeta.
    rewrite Hnext.
    unfold bind, get_state, ret. cbn. by rewrite insert_insert_eq.
  - unfold bind at 1, call_method at 1. rewrite lookup_insert_eq.
    unfold ProxyStream.next_data. cbn [cursors proxy_uuids ended].
    rewrite lookup_insert_eq. cbn [default from_option id]. cbv zeta. rewrite Hnext.
    unfold bind, get_state, ret. cbn.
    by rewrite !insert_insert_eq.
Qed.

(** [put] on a stream that exists and is open. *)
Lemma put_stream_open key b sid s d :
  stream_id key = Some sid ->
  d !! sid = Some (Stream s) ->
  ended s = false ->
  put (Some key) b d
  = (Ok tt, <[obj_id key := Bytes b]>
              (<[sid := Stream (mkProxyStream (proxy_uuids s ++ [obj_id key])
                                  (cursors s) false)]> d)).
Proof.
  intros Hsid Hd Hopen. unfold put, attr_of.
  unfold bind at 1, ret at 1. rewrite Hsid.
  unfold bind at 1. unfold bind at 1, get_state at 1.
  unfold bind at 1. rewrite Hd. unfold ret at 1. cbn [call_method].
  rewrite Hd. unfold ProxyStream.append. rewrite Hopen. reflexivity.
Qed.

(** X8. [ZeroMQServer.get] of a key with a [stream_id] does not look at the
    key's own [obj_id]: it returns what the store holds under the next id
    of the stream that this client has not read, and moves this client's
    cursor by one, leaving the cursors of other clients and every other
    entry of the store as they were. *)
Theorem server_get_reads_next_of_stream (d : gmap string value)
    (key : DIMKey) (sid id : string) (s : ProxyStream)
    (host : option string) :
  stream_id key = Some sid ->
  d !! sid = Some (Stream s) ->
  proxy_uuids s !! default 0%nat (cursors s !! host) = Some id ->
  id <> sid ->
  exists d',
    get (Some key) host d = (Ok (d !! id), d') /\
    d' !! sid
      = Some (Stream (mkProxyStream (proxy_uuids s)
                        (<[host := S (default 0%nat (cursors s !! host))]>
                           (cursors s))
                        (ended s))) /\
    (forall host', host' <> host ->
       <[host := S (default 0%nat (cursors s !! host))]> (cursors s) !! host'
       = cursors s !! host') /\
    (forall i, i <> sid -> d' !! i = d !! i).
Proof.
  intros Hsid Hd Hnext Hne. eexists. split; [|split; [|split]].
  - rewrite (get_stream_next _ _ _ _ _ _ Hsid Hd Hnext).
    by rewrite lookup_insert_ne.
  - by rewrite lookup_insert_eq.
  - intros host' Hh. by rewrite lookup_insert_ne.
  - intros i Hi. by rewrite lookup_insert_ne.
Qed.

Lemma server_get_reads_next_of_stream_witness :
  stream_id Example.stream_key = Some "s" /\
  Example.d_stream !! "s" = Some (Stream (mkProxyStream ["p"] ∅ false)) /\
  exists d',
    get (Some Example.stream_key) (Some "client") Example.d_stream
    = (Ok (Some (Bytes Example.payload)), d').
Proof.
  assert (Example.d_stream !! "s"
          = Some (Stream (mkProxyStream ["p"] ∅ false))) as Hd
    by reflexivity.
  split; [reflexivity|]. split; [exact Hd|].
  destruct (server_get_reads_next_of_stream Example.d_stream
              Example.stream_key "s" "p" _ (Some "client") eq_refl Hd
              eq_refl ltac:(discriminate))
    as (d' & Hget & _).
  exists d'. exact Hget.
Defined.

(** X9. Two packets put on a new stream are read back in the order they
    were put, whichever key of the stream is used for reading, and a second
    client reads the stream from its start, whatever the first has read. *)
Theorem server_stream_in_order (d : gmap string value) (k1 k2 key : DIMKey)
    (b1 b2 : bytes) (sid : string) (host host' : option string) :
  stream_id k1 = Some sid ->
  stream_id k2 = Some sid ->
  stream_id key = Some sid ->
  d !! sid = None ->
  obj_id k1 <> sid ->
  obj_id k2 <> sid ->
  obj_id k1 <> obj_id k2 ->
  host <> host' ->
  exists d',
    (put (Some k1) b1;;
     put (Some k2) b2;;
     let* x := get (Some key) host in
     let* y := get (Some key) host in
     let* z := get (Some key) host' in
     ret (x, y, z)) d
    = (Ok (Some (Bytes b1), Some (Bytes b2), Some (Bytes b1)), d').
Proof.
  intros Hs1 Hs2 Hs Hd Hn1 Hn2 Hn12 Hh.
  set (s1 := mkProxyStream [obj_id k1] ∅ false).
  set (d1 := <[obj_id k1 := Bytes b1]> (<[sid := Stream s1]> d)).
  set (s2 := mkProxyStream [obj_id k1; obj_id k2] ∅ false).
  set (d2 := <[obj_id k2 := Bytes b2]> (<[sid := Stream s2]> d1)).
  set (s3 := mkProxyStream [obj_id k1; obj_id k2] (<[host := 1%nat]> ∅)
                           false).
  set (s4 := mkProxyStream [obj_id k1; obj_id k2] (<[host := 2%nat]> ∅)
                           false).
  set (s5 := mkProxyStream [obj_id k1; obj_id k2]
               (<[host' := 1%nat]> (<[host := 2%nat]> ∅)) false).
  assert (put (Some k1) b1 d = (Ok tt, d1)) as Hp1
    by apply (put_creates_stream _ _ _ _ Hs1 Hd).
  assert (d1 !! sid = Some (Stream s1)) as Hd1.
  { unfold d1. rewrite lookup_insert_ne by done. apply lookup_insert_eq. }
  assert (put (Some k2) b2 d1 = (Ok tt, d2)) as Hp2
    by apply (put_stream_open _ _ _ _ _ Hs2 Hd1 eq_refl).
  assert (d2 !! sid = Some (Stream s2)) as Hd2.
  { unfold d2. rewrite lookup_insert_ne by done. apply lookup_insert_eq. }
  assert (d2 !! obj_id k1 = Some (Bytes b1)) as Hb1.
  { unfold d2, d1. rewrite lookup_insert_ne by done.
    rewrite lookup_insert_ne by done. apply lookup_insert_eq. }
  assert (d2 !! obj_id k2 = Some (Bytes b2)) as Hb2.
  { unfold d2. apply lookup_insert_eq. }
  assert (get (Some key) host d2
          = (Ok (Some (Bytes b1)), <[sid := Stream s3]> d2)) as Hg1.
  { rewrite (get_stream_next key sid s2 host (obj_id k1) d2 Hs Hd2).
    - cbn [proxy_uuids cursors ended s2]. rewrite lookup_empty.
      cbn [default from_option id].
      rewrite lookup_insert_ne by done. by rewrite Hb1.
    - cbn [proxy_uuids cursors s2]. by rewrite lookup_empty. }
  assert (get (Some key) host (<[sid := Stream s3]> d2)
          = (Ok (Some (Bytes b2)), <[sid := Stream s4]> d2)) as Hg2.
  { rewrite (get_stream_next key sid s3 host (obj_id k2) _ Hs).
    - cbn [proxy_uuids cursors ended s3]. rewrite lookup_insert_eq.
      cbn [default from_option id]. rewrite !insert_insert_eq.
      rewrite lookup_insert_ne by done. by rewrite Hb2.
    - apply lookup_insert_eq.
    - cbn [proxy_uuids cursors s3]. by rewrite lookup_insert_eq. }
  assert (get (Some key) host' (<[sid := Stream s4]> d2)
          = (Ok (Some (Bytes b1)), <[sid := Stream s5]> d2)) as Hg3.
  { assert (cursors s4 !! host' = None) as Hc.
    { cbn [cursors s4]. rewrite lookup_insert_ne by done.
      apply lookup_empty. }
    rewrite (get_stream_next key sid s4 host' (obj_id k1) _ Hs).
    - rewrite Hc. cbn [proxy_uuids cursors ended s4 default from_option id].
      rewrite !insert_insert_eq.
      rewrite lookup_insert_ne by done. by rewrite Hb1.
    - apply lookup_insert_eq.
    - by rewrite Hc. }
  exists (<[sid := Stream s5]> d2).
  unfold bind at 1. rewrite Hp1. unfold bind at 1. rewrite Hp2.
  unfold bind at 1. rewrite Hg1. unfold bind at 1. rewrite Hg2.
  unfold bind at 1. rewrite Hg3. reflexivity.
Qed.

Lemma server_stream_in_order_witness :
  exists d',
    (put (Some (mkDIMKey "zmq" "p" 3 "10.0.0.1" 5555 (Some "s")))
         Example.payload;;
     put (Some (mkDIMKey "zmq" "q" 0 "10.0.0.1" 5555 (Some "s"))) [];;
     let* x := get (Some Example.stream_key) (Some "a") in
     let* y := get (Some Example.stream_key) (Some "a") in
     let* z := get (Some Example.stream_key) (Some "b") in
     ret (x, y, z)) ∅
    = (Ok (Some (Bytes Example.payload), Some (Bytes []),
           Some (Bytes Example.payload)), d').
Proof.
  apply (server_stream_in_order ∅
           (mkDIMKey "zmq" "p" 3 "10.0.0.1" 5555 (Some "s"))
           (mkDIMKey "zmq" "q" 0 "10.0.0.1" 5555 (Some "s"))
           Example.stream_key Example.payload [] "s" (Some "a") (Some "b"));
    try reflexivity; discriminate.
Defined.

End StreamExtras.

(** * Further properties of the connector, in any world *)

Section ConnectorExtras.
Context {W : Type} `{Host W}.
Import ZeroMQConnector Statements.

Lemma send_rpc_no_key self rpc w :
  key rpc = None ->
  send_rpc self rpc w = (Raise (AttributeError "NoneType" "peer_host"), w).
Proof. intros Hk. unfold send_rpc, key_of. by rewrite Hk. Qed.

(** What a response that [send_rpc] returns has been checked for. *)
Lemma send_rpc_inv self rpc w r w' :
  send_rpc self rpc w = (Ok r, w') ->
  is_Some (key rpc) /\ r_exception r = None /\
  r_operation r = operation rpc /\ r_key r = key rpc.
Proof.
  unfold send_rpc, key_of. destruct (key rpc) as [k|]; [|discriminate].
  unfold bind at 1, ret at 1. unfold bind at 1.
  destruct (sock_send _ _ _ _ w) as [[[]| |] w1]; try discriminate.
  unfold bind at 1.
  destruct (sock_recv w1) as [[response| |] w2]; try discriminate.
  destruct (r_exception response) as [e|] eqn:He; [discriminate|].
  destruct (String.eqb_spec (operation rpc) (r_operation response))
    as [Hop|Hop]; [|discriminate].
  cbn [negb]. case_bool_decide as Hkey; [|discriminate].
  cbn [negb]. unfold ret. intros [= <- <-]. by repeat split.
Qed.

(** X10. A call without a key raises before anything is sent: [get],
    [evict] and [exists] of [None] raise [AttributeError] and leave the
    world as it was, and [get_batch] raises it at the first [None] of its
    list, after the keys before it were requested and before any key
    after it is. *)
Theorem missing_key_raises_before_sending (self : ZeroMQConnector) (w : W) :
  get self None w = (Raise (AttributeError "NoneType" "peer_host"), w) /\
  evict self None w = (Raise (AttributeError "NoneType" "peer_host"), w) /\
  exists_ self None w = (Raise (AttributeError "NoneType" "peer_host"), w) /\
  (forall pre post rs w1,
     _send_rpcs self
       (map (fun key => mkRPC "get" key None (Some (_client_id self))) pre) w
       = (Ok rs, w1) ->
     get_batch self (pre ++ None :: post) w
     = (Raise (AttributeError "NoneType" "peer_host"), w1)).
Proof.
  repeat split; try reflexivity.
  intros pre post rs w1 Hpre. unfold get_batch, _send_rpcs in *.
  rewrite map_app. cbn [map]. unfold bind.
  by erewrite map_m_raise; [|exact Hpre|apply send_rpc_no_key].
Qed.

(** X11. The batch operations on no input send nothing and return the
    empty list, whatever the key argument; [put_batch] of at least one
    payload with [None] for a key draws one id and raises
    [AttributeError] before anything is sent. *)
Theorem batch_edge_cases (self : ZeroMQConnector) (w : W) :
  get_batch self [] w = (Ok [], w) /\
  (forall key, put_batch self [] key w = (Ok [], w)) /\
  (forall obj objs id w1,
     uuid4 w = (Ok id, w1) ->
     put_batch self (obj :: objs) None w
     = (Raise (AttributeError "NoneType" "stream_id"), w1)).
Proof.
  repeat split.
  intros obj objs id w1 Hid. unfold put_batch. cbn [map_m].
  unfold bind at 1. unfold bind at 1. unfold batch_key at 1.
  unfold bind at 1. by rewrite Hid.
Qed.

(** X12. [_send_rpcs] returns only checked responses: when it returns,
    there is one response per request, in order, none carries an
    exception, and each has the operation and the key of its request. *)
Theorem send_rpcs_returns_checked_responses (self : ZeroMQConnector)
    (rpcs : list RPC) (w w' : W) (rs : list RPCResponse) :
  _send_rpcs self rpcs w = (Ok rs, w') ->
  Forall2 (fun rpc r =>
             is_Some (key rpc) /\ r_exception r = None /\
             r_operation r = operation rpc /\ r_key r = key rpc)
          rpcs rs.
Proof.
  unfold _send_rpcs. revert w rs.
  induction rpcs as [|rpc rpcs IH]; intros w rs Hrun.
  - cbn in Hrun. injection Hrun as <- _. constructor.
  - apply map_m_cons_inv in Hrun as (r & w1 & rs' & Hr & Hrest & ->).
    constructor; [by eapply send_rpc_inv|by eapply IH].
Qed.

(** X13. A response without exception whose operation or key is not the
    request's trips the [assert]s of [_send_rpcs]: the call raises
    [AssertionError] instead of returning the response. *)
Theorem mismatched_response_is_rejected (self : ZeroMQConnector) (rpc : RPC)
    (w w' : W) (response : RPCResponse) :
  answered self rpc w response w' ->
  r_exception response = None ->
  r_operation response <> operation rpc \/ r_key response <> key rpc ->
  _send_rpcs self [rpc] w = (Raise (AssertionError ""), w').
Proof.
  intros (k & w1 & Hk & Hsend & Hrecv) Hexc Hbad.
  unfold _send_rpcs. cbn [map_m]. unfold bind at 1.
  unfold send_rpc, key_of. rewrite Hk.
  unfold bind at 1, ret at 1. unfold bind at 1. rewrite Hsend.
  unfold bind at 1. rewrite Hrecv, Hexc.
  destruct (String.eqb_spec (operation rpc) (r_operation response))
    as [Hop|Hop]; [|reflexivity].
  cbn [negb]. destruct Hbad as [Hbad|Hbad]; [by rewrite Hop in Hbad|].
  by rewrite bool_decide_eq_false_2 by congruence.
Qed.

(** X14. When the first probe times out and the server spawned for it does
    not answer within the timeout either, [__init__] raises
    [ServerTimeoutError]: no connector is built, and the child process was
    started and registered for cleanup and is left running. *)
Theorem init_spawn_timeout (p : Z) (a i : option string) (c : option Z)
    (t : Q) (w w1 w2 w3 w4 w5 w6 : W) (id addr : string) (proc : Process) :
  uuid4 w = (Ok id, w1) ->
  resolve_address a i w1 = (Ok addr, w2) ->
  wait_for_server addr p t w2 = (Raise ServerTimeoutError, w3) ->
  process_start addr p (Some (default MAX_CHUNK_LENGTH_DEFAULT c)) w3
    = (Ok proc, w4) ->
  atexit_register proc (Some 1%Q) w4 = (Ok tt, w5) ->
  wait_for_server addr p t w5 = (Raise ServerTimeoutError, w6) ->
  __init__ p a i c t w = (Raise ServerTimeoutError, w6).
Proof.
  intros Hid Haddr Hprobe Hstart Hexit Hprobe'. unfold __init__.
  unfold bind at 1. rewrite Hid. unfold bind at 1. rewrite Haddr.
  unfold bind at 1, try_except at 1. unfold bind at 1. rewrite Hprobe.
  unfold bind at 1, spawn_server at 1.
  assert (match c with Some n => n | None => MAX_CHUNK_LENGTH_DEFAULT end
          = default MAX_CHUNK_LENGTH_DEFAULT c) as -> by by destruct c.
  unfold bind at 1. rewrite Hstart.
  unfold bind at 1. rewrite Hexit.
  unfold bind at 1. by rewrite Hprobe'.
Qed.

(** X15. An explicit address takes precedence over the interface and is
    used as it is, without any lookup; and when the address cannot be
    resolved, [__init__] raises the resolver's error before it probes or
    spawns anything. *)
Theorem init_address_resolution (p : Z) (a i : option string)
    (c : option Z) (t : Q) (w w1 : W) (id : string) :
  uuid4 w = (Ok id, w1) ->
  (forall addr, a = Some addr -> resolve_address a i w1 = (Ok addr, w1)) /\
  (forall e w2, resolve_address a i w1 = (Raise e, w2) ->
                __init__ p a i c t w = (Raise e, w2)).
Proof.
  intros Hid. split.
  - by intros addr ->.
  - intros e w2 Hres. unfold __init__. unfold bind at 1. rewrite Hid.
    unfold bind at 1. by rewrite Hres.
Qed.

End ConnectorExtras.

(** * Further properties of the connector against its servers *)

Section WorldExtras.
Import ZeroMQConnector Statements.

Implicit Types (w : World) (d : gmap string value) (k : DIMKey).

(** One request and its response, whatever the response says. *)
Lemma answered_by_server self rpc k d response d' w :
  key rpc = Some k ->
  servers w !! (peer_host k, peer_port k) = Some (Serving d) ->
  inbox w = [] ->
  ZeroMQServer.handle_rpc rpc d = (Ok response, d') ->
  answered self rpc w response
           (exchanged (peer_host k) (peer_port k) rpc response d' w).
Proof.
  intros Hk Hsrv Hin Hh. exists k. eexists. split; [done|]. split.
  - cbn [sock_send World.host]. unfold World.w_sock_send.
    cbn [servers World.record]. rewrite Hsrv, Hh. reflexivity.
  - cbn [sock_recv World.host]. unfold World.w_sock_recv.
    cbn [inbox World.set_inbox World.set_servers World.record].
    rewrite Hin. cbn [app].
    unfold exchanged, World.record, World.set_inbox, World.set_servers.
    cbn. by rewrite <- app_assoc.
Qed.

Lemma exchanged_other host port rpc response d' w (ep : string * Z) :
  ep <> (host, port) ->
  servers (exchanged host port rpc response d' w) !! ep = servers w !! ep.
Proof. intros Hne. cbn. by rewrite lookup_insert_ne. Qed.

Lemma handle_exists k d :
  ZeroMQServer.handle_rpc (mkRPC "exists" (Some k) None None) d
  = (Ok (mkRPCResponse "exists" (Some k) None
           (Some (bool_decide (is_Some (d !! obj_id k)))) None), d).
Proof. by apply handle_rpc_ok. Qed.

Lemma handle_evict_plain k cid d :
  stream_id k = None ->
  ZeroMQServer.handle_rpc (mkRPC "evict" (Some k) None cid) d
  = (Ok (ack (mkRPC "evict" (Some k) None cid)), delete (obj_id k) d).
Proof.
  intros Hsid. apply handle_rpc_ok. rewrite dispatch_evict.
  unfold bind. by rewrite (evict_plain _ _ Hsid).
Qed.

Lemma send_one self rpc w r w' :
  send_rpc self rpc w = (Ok r, w') ->
  _send_rpcs self [rpc] w = (Ok [r], w').
Proof.
  intros Hr. unfold _send_rpcs. cbn [map_m]. unfold bind at 1.
  by rewrite Hr.
Qed.

(** [get] of a plain key, against the server the key names. *)
Lemma connector_get_plain self k d w :
  stream_id k = None ->
  servers w !! (peer_host k, peer_port k) = Some (Serving d) ->
  inbox w = [] ->
  get self (Some k) w
  = (Ok (d !! obj_id k),
     exchanged (peer_host k) (peer_port k) (get_rpc self k) (found d k) d w).
Proof.
  intros Hsid Hsrv Hin. unfold get. unfold bind.
  change (mkRPC "get" (Some k) None (Some (_client_id self)))
    with (get_rpc self k).
  by rewrite (send_one _ _ _ _ _
                (exchange self (get_rpc self k) k d (found d k) d w eq_refl
                   Hsrv Hin (handle_get_plain self k d Hsid)
                   eq_refl eq_refl eq_refl)).
Qed.

Lemma connector_exists self k d w :
  servers w !! (peer_host k, peer_port k) = Some (Serving d) ->
  inbox w = [] ->
  exists_ self (Some k) w
  = (Ok (bool_decide (is_Some (d !! obj_id k))),
     exchanged (peer_host k) (peer_port k)
       (mkRPC "exists" (Some k) None None)
       (mkRPCResponse "exists" (Some k) None
          (Some (bool_decide (is_Some (d !! obj_id k)))) None) d w).
Proof.
  intros Hsrv Hin. unfold exists_. unfold bind.
  by rewrite (send_one _ _ _ _ _
                (exchange self (mkRPC "exists" (Some k) None None) k d _ d w
                   eq_refl Hsrv Hin (handle_exists k d)
                   eq_refl eq_refl eq_refl)).
Qed.

Lemma connector_evict_plain self k d w :
  stream_id k = None ->
  servers w !! (peer_host k, peer_port k) = Some (Serving d) ->
  inbox w = [] ->
  evict self (Some k) w
  = (Ok tt,
     exchanged (peer_host k) (peer_port k)
       (mkRPC "evict" (Some k) None (Some (_client_id self)))
       (ack (mkRPC "evict" (Some k) None (Some (_client_id self))))
       (delete (obj_id k) d) w).
Proof.
  intros Hsid Hsrv Hin. unfold evict. unfold bind.
  by rewrite (send_one _ _ _ _ _
                (exchange self
                   (mkRPC "evict" (Some k) None (Some (_client_id self)))
                   k d _ _ w eq_refl Hsrv Hin
                   (handle_evict_plain k (Some (_client_id self)) d Hsid)
                   eq_refl eq_refl eq_refl)).
Qed.

(** X16. A request goes to the server its key names, not to the
    connector's own: with a positive chunk length, [get] of a plain key
    returns what the server at the key's [peer_host] and [peer_port] holds
    under the key's [obj_id] ([None] when it holds nothing), leaves that
    store as it was, and touches no other server. *)
Theorem connector_get_reads_key_peer (self : ZeroMQConnector) (k : DIMKey)
    (d : gmap string value) (w : World) :
  0 < chunk_length self ->
  stream_id k = None ->
  servers w !! (peer_host k, peer_port k) = Some (Serving d) ->
  inbox w = [] ->
  exists w',
    get self (Some k) w = (Ok (d !! obj_id k), w') /\
    servers w' !! (peer_host k, peer_port k) = Some (Serving d) /\
    inbox w' = [] /\
    (forall ep, ep <> (peer_host k, peer_port k) ->
                servers w' !! ep = servers w !! ep).
Proof.
  intros _ Hsid Hsrv Hin. eexists. split.
  - by apply connector_get_plain.
  - split; [apply exchanged_servers|]. split; [reflexivity|].
    intros ep Hne. by apply exchanged_other.
Qed.

Lemma connector_get_reads_key_peer_witness :
  0 < chunk_length
        (mkZeroMQConnector None None "other" 7777 1 1%Q "10.0.0.2" None) /\
  stream_id Example.plain_key = None /\
  servers Example.w0 !! (peer_host Example.plain_key,
                         peer_port Example.plain_key) = Some (Serving ∅) /\
  exists w',
    get (mkZeroMQConnector None None "other" 7777 1 1%Q "10.0.0.2" None)
        (Some Example.plain_key) Example.w0
    = (Ok None, w').
Proof.
  assert (servers Example.w0 !! (peer_host Example.plain_key,
                                 peer_port Example.plain_key)
          = Some (Serving ∅)) as Hsrv by reflexivity.
  assert (0 < chunk_length
                (mkZeroMQConnector None None "other" 7777 1 1%Q "10.0.0.2"
                                   None)) as Hchunk by reflexivity.
  split; [exact Hchunk|]. split; [reflexivity|]. split; [exact Hsrv|].
  destruct (connector_get_reads_key_peer
              (mkZeroMQConnector None None "other" 7777 1 1%Q "10.0.0.2"
                                 None)
              Example.plain_key ∅ Example.w0 Hchunk eq_refl Hsrv eq_refl)
    as (w' & Hget & _).
  exists w'. exact Hget.
Defined.

(** X17. Against its own live server, [put] of a payload with no key, or
    with a key that carries no [stream_id], stores the payload under the
    id it drew: the key built from that id, the payload's length and the
    connector's address and port then [exists] and [get]s the payload
    back, though [put] returned its argument and not that key. *)
Theorem connector_put_then_get (self : ZeroMQConnector) (obj : bytes)
    (key : option DIMKey) (w : World) (d : gmap string value) :
  0 < chunk_length self ->
  servers w !! (address self, port self) = Some (Serving d) ->
  inbox w = [] ->
  key ≫= stream_id = None ->
  let data_key :=
    mkDIMKey "zmq" (uuids w (drawn w)) (len obj) (address self) (port self)
             None in
  exists w',
    put self obj key w = (Ok key, w') /\
    servers w' !! (address self, port self)
      = Some (Serving (<[uuids w (drawn w) := Bytes obj]> d)) /\
    (get self (Some data_key) w').1 = Ok (Some (Bytes obj)) /\
    (exists_ self (Some data_key) w').1 = Ok true.
Proof.
  intros _ Hsrv Hin Hsid data_key.
  pose proof (exchange self (put_rpc (data_key, obj)) data_key d
                (ack (put_rpc (data_key, obj)))
                (<[obj_id data_key := Bytes obj]> d)
                (World.set_drawn S w) eq_refl Hsrv Hin
                (handle_put_plain data_key obj d eq_refl)
                eq_refl eq_refl eq_refl) as Hx.
  cbn [peer_host peer_port data_key] in Hx.
  eexists. split; [|split; [|split]].
  - assert (uuid4 w = (Ok (uuids w (drawn w)), World.set_drawn S w)) as Hid
      by reflexivity.
    rewrite (put_unfold self obj key w _ _ Hid).
    rewrite Hsid. unfold bind. fold data_key.
    change (mkRPC "put" (Some data_key) (Some obj) None)
      with (put_rpc (data_key, obj)).
    by rewrite (send_one _ _ _ _ _ Hx).
  - apply exchanged_servers.
  - rewrite (connector_get_plain self data_key
               (<[obj_id data_key := Bytes obj]> d)); try done.
    + cbn. by rewrite lookup_insert_eq.
    + apply exchanged_servers.
  - rewrite (connector_exists self data_key
               (<[obj_id data_key := Bytes obj]> d)); try done.
    + cbn [fst]. f_equal. apply bool_decide_eq_true_2.
      cbn. by rewrite lookup_insert_eq.
    + apply exchanged_servers.
Qed.

Lemma connector_put_then_get_witness :
  0 < chunk_length Example.c0 /\
  servers Example.w0 !! (address Example.c0, port Example.c0)
    = Some (Serving ∅) /\
  exists w',
    put Example.c0 Example.payload (Some Example.plain_key) Example.w0
      = (Ok (Some Example.plain_key), w') /\
    (get Example.c0 (Some (mkDIMKey "zmq" "u" 3 "10.0.0.1" 5555 None)) w').1
      = Ok (Some (Bytes Example.payload)).
Proof.
  assert (0 < chunk_length Example.c0) as Hchunk by reflexivity.
  assert (servers Example.w0 !! (address Example.c0, port Example.c0)
          = Some (Serving ∅)) as Hsrv by reflexivity.
  split; [exact Hchunk|]. split; [exact Hsrv|].
  destruct (connector_put_then_get Example.c0 Example.payload
              (Some Example.plain_key) Example.w0 ∅ Hchunk Hsrv eq_refl
              eq_refl) as (w' & Hput & _ & Hget & _).
  exists w'. split; [exact Hput|exact Hget].
Defined.

(** X18. With a positive chunk length, after [evict] of a plain key,
    [exists] of the key is false and [get] of it returns [None], whether
    or not the server held anything under it. *)
Theorem connector_evict_then_absent (self : ZeroMQConnector) (k : DIMKey)
    (d : gmap string value) (w : World) :
  0 < chunk_length self ->
  stream_id k = None ->
  servers w !! (peer_host k, peer_port k) = Some (Serving d) ->
  inbox w = [] ->
  exists w',
    evict self (Some k) w = (Ok tt, w') /\
    servers w' !! (peer_host k, peer_port k)
      = Some (Serving (delete (obj_id k) d)) /\
    (exists_ self (Some k) w').1 = Ok false /\
    (get self (Some k) w').1 = Ok None.
Proof.
  intros _ Hsid Hsrv Hin. eexists. split; [|split; [|split]].
  - by apply connector_evict_plain.
  - apply exchanged_servers.
  - rewrite (connector_exists self k (delete (obj_id k) d)); try done.
    + cbn [fst]. f_equal. apply bool_decide_eq_false_2.
      rewrite lookup_delete_eq. apply is_Some_None.
    + apply exchanged_servers.
  - rewrite (connector_get_plain self k (delete (obj_id k) d)); try done.
    + cbn [fst]. by rewrite lookup_delete_eq.
    + apply exchanged_servers.
Qed.

Lemma connector_evict_then_absent_witness :
  0 < chunk_length Example.c0 /\
  stream_id Example.plain_key = None /\
  servers Example.w0 !! (peer_host Example.plain_key,
                         peer_port Example.plain_key) = Some (Serving ∅) /\
  exists w',
    evict Example.c0 (Some Example.plain_key) Example.w0 = (Ok tt, w') /\
    (get Example.c0 (Some Example.plain_key) w').1 = Ok None.
Proof.
  assert (servers Example.w0 !! (peer_host Example.plain_key,
                                 peer_port Example.plain_key)
          = Some (Serving ∅)) as Hsrv by reflexivity.
  assert (0 < chunk_length Example.c0) as Hchunk by reflexivity.
  split; [exact Hchunk|]. split; [reflexivity|]. split; [exact Hsrv|].
  destruct (connector_evict_then_absent Example.c0 Example.plain_key ∅
              Example.w0 Hchunk eq_refl Hsrv eq_refl)
    as (w' & Hev & _ & _ & Hget).
  exists w'. split; [exact Hev|exact Hget].
Defined.

End WorldExtras.

Section LifecycleExtras.
Import ZeroMQConnector Statements.

Implicit Types (w : World) (d : gmap string value) (k : DIMKey).

(** X19. [create_stream] only draws an id: it contacts no server, so the
    stream does not exist yet. With a positive chunk length,
    [close_stream] of such a key, before any [put] on the stream, raises
    the server's [KeyError] and leaves the server's store as it was. *)
Theorem close_stream_before_first_put (self : ZeroMQConnector) (w : World)
    (d : gmap string value) :
  0 < chunk_length self ->
  servers w !! (address self, port self) = Some (Serving d) ->
  inbox w = [] ->
  d !! uuids w (drawn w) = None ->
  let id := uuids w (drawn w) in
  let key := mkDIMKey "zmq" id 0 (address self) (port self) (Some id) in
  create_stream self w = (Ok key, World.set_drawn S w) /\
  servers (World.set_drawn S w) = servers w /\
  log (World.set_drawn S w) = log w /\
  exists w',
    close_stream self (Some key) (World.set_drawn S w)
      = (Raise (KeyError id), w') /\
    servers w' !! (address self, port self) = Some (Serving d).
Proof.
  intros _ Hsrv Hin Hd id key. split; [reflexivity|].
  split; [reflexivity|]. split; [reflexivity|].
  set (rpc := mkRPC "evict" (Some key) None (Some (_client_id self))).
  assert (ZeroMQServer.handle_rpc rpc d = (Ok (failure rpc (KeyError id)), d))
    as Hh.
  { apply handle_rpc_raise. unfold rpc. rewrite dispatch_evict.
    unfold bind. by rewrite (missing_stream_evict key id d eq_refl Hd). }
  pose proof (answered_by_server self rpc key d _ _ (World.set_drawn S w)
                eq_refl Hsrv Hin Hh) as Hans.
  eexists. split.
  - pose proof (send_rpcs_raise self [] rpc [] _ [] _ _ _ (KeyError id)
                  eq_refl Hans eq_refl) as Hraise.
    cbn [app] in Hraise.
    unfold close_stream, evict. fold rpc. unfold bind. by rewrite Hraise.
  - apply exchanged_servers.
Qed.

Lemma close_stream_before_first_put_witness :
  0 < chunk_length Example.c0 /\
  servers Example.w0 !! (address Example.c0, port Example.c0)
    = Some (Serving ∅) /\
  (∅ : gmap string value) !! uuids Example.w0 (drawn Example.w0) = None /\
  create_stream Example.c0 Example.w0
    = (Ok (mkDIMKey "zmq" "u" 0 "10.0.0.1" 5555 (Some "u")),
       World.set_drawn S Example.w0) /\
  exists w',
    close_stream Example.c0
      (Some (mkDIMKey "zmq" "u" 0 "10.0.0.1" 5555 (Some "u")))
      (World.set_drawn S Example.w0)
    = (Raise (KeyError "u"), w').
Proof.
  assert (servers Example.w0 !! (address Example.c0, port Example.c0)
          = Some (Serving ∅)) as Hsrv by reflexivity.
  assert ((∅ : gmap string value) !! uuids Example.w0 (drawn Example.w0)
          = None) as Hd by reflexivity.
  assert (0 < chunk_length Example.c0) as Hchunk by reflexivity.
  split; [exact Hchunk|]. split; [exact Hsrv|]. split; [exact Hd|].
  destruct (close_stream_before_first_put Example.c0 Example.w0 ∅ Hchunk
              Hsrv eq_refl Hd) as (Hcreate & _ & _ & w' & Hclose & _).
  split; [exact Hcreate|]. exists w'. exact Hclose.
Defined.

Lemma requests_one_at_a_time self (rpcs : list RPC) :
  World.requests (one_at_a_time self rpcs) = rpcs.
Proof.
  induction rpcs as [|rpc rpcs IH]; [reflexivity|].
  unfold World.requests, one_at_a_time in *. cbn. by rewrite IH.
Qed.

(** X20. [put_batch] builds its requests with two [for] clauses, one over
    the keys and one over the pairs of keys and payloads: for n payloads
    it sends n times n [put] requests, every payload once for every key. *)
Theorem put_batch_sends_every_pair_for_every_key (self : ZeroMQConnector)
    (objs : list bytes) (k : DIMKey) (w : World) (d : gmap string value) :
  0 < chunk_length self ->
  servers w !! (address self, port self) = Some (Serving d) ->
  inbox w = [] ->
  stream_id k = None ->
  exists keys w',
    put_batch self objs (Some k) w = (Ok keys, w') /\
    World.requests (new_events w w')
      = flat_map (fun _ => map put_rpc (zip keys objs)) keys /\
    length (World.requests (new_events w w'))
      = (length objs * length objs)%nat.
Proof.
  intros _ Hsrv Hin Hsid.
  destruct (batch_keys self k objs w) as (w1 & Hkeys & Hs1 & Hi1 & Hl1).
  rewrite Hsid in Hkeys.
  set (keys := fresh_keys self None (uuids w) (drawn w) objs) in *.
  set (kos := flat_map (fun _ => zip keys objs) keys).
  destruct (send_puts self kos w1 d) as (w2 & Hputs & Hs2 & Hi2 & Hl2).
  { by rewrite Hs1. }
  { by rewrite Hi1. }
  { apply Forall_forall. intros [k' b'] Hin'. cbn.
    apply list_elem_of_In, in_flat_map in Hin' as (_ & _ & Hin').
    apply list_elem_of_In, elem_of_zip_l in Hin'.
    pose proof (fresh_keys_own_plain self (uuids w) (drawn w) objs) as Hall.
    by eapply Forall_forall in Hall. }
  assert (World.requests (new_events w w2) = batch_rpcs keys objs) as Hreq.
  { unfold new_events. rewrite Hl2, Hl1, drop_app_length.
    rewrite requests_one_at_a_time. by rewrite batch_rpcs_put_rpc. }
  exists keys, w2. split; [|split].
  - rewrite (put_batch_unfold (W := World) _ _ _ _ _ _ Hkeys).
    rewrite batch_rpcs_put_rpc. fold kos. unfold bind. by rewrite Hputs.
  - exact Hreq.
  - rewrite Hreq, batch_rpcs_length, length_zip_with.
    unfold keys. rewrite fresh_keys_length. lia.
Qed.

Lemma put_batch_sends_every_pair_for_every_key_witness :
  0 < chunk_length Example.c0 /\
  servers Example.w0 !! (address Example.c0, port Example.c0)
    = Some (Serving ∅) /\
  exists keys w',
    put_batch Example.c0 [[Byte.x01]; [Byte.x02]; [Byte.x03]]
              (Some Example.plain_key) Example.w0 = (Ok keys, w') /\
    length (World.requests (new_events Example.w0 w')) = 9%nat.
Proof.
  assert (0 < chunk_length Example.c0) as Hchunk by reflexivity.
  assert (servers Example.w0 !! (address Example.c0, port Example.c0)
          = Some (Serving ∅)) as Hsrv by reflexivity.
  split; [exact Hchunk|]. split; [exact Hsrv|].
  destruct (put_batch_sends_every_pair_for_every_key Example.c0
              [[Byte.x01]; [Byte.x02]; [Byte.x03]] Example.plain_key
              Example.w0 ∅ Hchunk Hsrv eq_refl eq_refl)
    as (keys & w' & Hput & _ & Hlen).
  exists keys, w'. split; [exact Hput|exact Hlen].
Defined.

End LifecycleExtras.

Section ExtraRuns.
Import ZeroMQConnector Statements.

(** X10 on a run: the key before the [None] is requested, the one after it
    is not. *)
Lemma missing_key_raises_before_sending_witness :
  _send_rpcs Example.c0
    (map (fun key => mkRPC "get" key None (Some (_client_id Example.c0)))
         [Some Example.plain_key]) Example.w0
    = (Ok [found ∅ Example.plain_key],
       exchanged "10.0.0.1" 5555 (get_rpc Example.c0 Example.plain_key)
                 (found ∅ Example.plain_key) ∅ Example.w0) /\
  get_batch Example.c0 [Some Example.plain_key; None; Some Example.plain_key]
            Example.w0
    = (Raise (AttributeError "NoneType" "peer_host"),
       exchanged "10.0.0.1" 5555 (get_rpc Example.c0 Example.plain_key)
                 (found ∅ Example.plain_key) ∅ Example.w0).
Proof.
  assert (_send_rpcs Example.c0
            (map (fun key =>
                    mkRPC "get" key None (Some (_client_id Example.c0)))
                 [Some Example.plain_key]) Example.w0
          = (Ok [found ∅ Example.plain_key],
             exchanged "10.0.0.1" 5555
               (get_rpc Example.c0 Example.plain_key)
               (found ∅ Example.plain_key) ∅ Example.w0)) as Hpre
    by reflexivity.
  split; [exact Hpre|].
  destruct (missing_key_raises_before_sending Example.c0 Example.w0)
    as (_ & _ & _ & Hbatch).
  exact (Hbatch [Some Example.plain_key] [Some Example.plain_key] _ _ Hpre).
Defined.

(** X11 on a run: one id is drawn, nothing is sent. *)
Lemma batch_edge_cases_witness :
  uuid4 Example.w0 = (Ok "u", World.set_drawn S Example.w0) /\
  put_batch Example.c0 [Example.payload] None Example.w0
    = (Raise (AttributeError "NoneType" "stream_id"),
       World.set_drawn S Example.w0).
Proof.
  assert (uuid4 Example.w0 = (Ok "u", World.set_drawn S Example.w0)) as Hid
    by reflexivity.
  split; [exact Hid|].
  destruct (batch_edge_cases Example.c0 Example.w0) as (_ & _ & Hnone).
  exact (Hnone Example.payload [] _ _ Hid).
Defined.

(** X12 on a run. *)
Lemma send_rpcs_returns_checked_responses_witness :
  _send_rpcs Example.c0 [get_rpc Example.c0 Example.plain_key] Example.w0
    = (Ok [found ∅ Example.plain_key],
       exchanged "10.0.0.1" 5555 (get_rpc Example.c0 Example.plain_key)
                 (found ∅ Example.plain_key) ∅ Example.w0) /\
  Forall2 (fun rpc r =>
             is_Some (key rpc) /\ r_exception r = None /\
             r_operation r = operation rpc /\ r_key r = key rpc)
          [get_rpc Example.c0 Example.plain_key]
          [found ∅ Example.plain_key].
Proof.
  assert (_send_rpcs Example.c0 [get_rpc Example.c0 Example.plain_key]
                     Example.w0
          = (Ok [found ∅ Example.plain_key],
             exchanged "10.0.0.1" 5555
               (get_rpc Example.c0 Example.plain_key)
               (found ∅ Example.plain_key) ∅ Example.w0)) as Hrun
    by reflexivity.
  split; [exact Hrun|].
  exact (send_rpcs_returns_checked_responses _ _ _ _ _ Hrun).
Defined.

(** X13 on a run: a response to another request was left unread on the
    socket; the next call reads it and refuses it. *)
Lemma mismatched_response_is_rejected_witness :
  answered Example.c0 (get_rpc Example.c0 Example.plain_key) Example.w_stale
    (mkRPCResponse "evict" (Some Example.plain_key) None None None)
    (sock_recv
       (sock_send "10.0.0.1" 5555 65536
          (get_rpc Example.c0 Example.plain_key) Example.w_stale).2).2 /\
  _send_rpcs Example.c0 [get_rpc Example.c0 Example.plain_key]
             Example.w_stale
    = (Raise (AssertionError ""),
       (sock_recv
          (sock_send "10.0.0.1" 5555 65536
             (get_rpc Example.c0 Example.plain_key) Example.w_stale).2).2).
Proof.
  assert (answered Example.c0 (get_rpc Example.c0 Example.plain_key)
            Example.w_stale
            (mkRPCResponse "evict" (Some Example.plain_key) None None None)
            (sock_recv
               (sock_send "10.0.0.1" 5555 65536
                  (get_rpc Example.c0 Example.plain_key)
                  Example.w_stale).2).2) as Hans.
  { exists Example.plain_key. eexists. split; [reflexivity|].
    split; reflexivity. }
  split; [exact Hans|].
  apply (mismatched_response_is_rejected _ _ _ _ _ Hans eq_refl).
  left. discriminate.
Defined.

(** X14 on a run: with a timeout of zero even the spawned server is not
    waited for; it is left serving at the port. *)
Lemma init_spawn_timeout_witness :
  __init__ 6000 (Some "10.0.0.1") None None 0%Q Example.w0
    = (Raise ServerTimeoutError,
       World.set_processes
         (insert (fresh (dom (processes Example.w0)))
                 (Some ("10.0.0.1", 6000)))
         (World.set_servers
            (insert ("10.0.0.1", 6000) (Serving ZeroMQServer.__init__))
            (World.set_drawn S Example.w0))).
Proof.
  set (w1 := World.set_drawn S Example.w0).
  set (w2 := World.set_processes
         (insert (fresh (dom (processes Example.w0)))
                 (Some ("10.0.0.1", 6000)))
         (World.set_servers
            (insert ("10.0.0.1", 6000) (Serving ZeroMQServer.__init__))
            w1)).
  assert (uuid4 Example.w0 = (Ok "u", w1)) as Hid by reflexivity.
  assert (resolve_address (Some "10.0.0.1") None w1 = (Ok "10.0.0.1", w1))
    as Haddr by reflexivity.
  assert (wait_for_server "10.0.0.1" 6000 0%Q w1
          = (Raise ServerTimeoutError, w1)) as Hprobe by reflexivity.
  assert (process_start "10.0.0.1" 6000
            (Some (default MAX_CHUNK_LENGTH_DEFAULT None)) w1
          = (Ok (fresh (dom (processes Example.w0))), w2)) as Hstart
    by reflexivity.
  assert (atexit_register (fresh (dom (processes Example.w0))) (Some 1%Q) w2
          = (Ok tt, w2)) as Hexit by reflexivity.
  assert (wait_for_server "10.0.0.1" 6000 0%Q w2
          = (Raise ServerTimeoutError, w2)) as Hprobe' by reflexivity.
  exact (init_spawn_timeout 6000 (Some "10.0.0.1") None None 0%Q
           _ _ _ _ _ _ _ _ _ _ Hid Haddr Hprobe Hstart Hexit Hprobe').
Defined.

(** X15 on a run: the interface does not resolve, nothing is probed. *)
Lemma init_address_resolution_witness :
  uuid4 Example.w_unresolved
    = (Ok "u", World.set_drawn S Example.w_unresolved) /\
  __init__ 5555 None (Some "eth9") None 1%Q Example.w_unresolved
    = (Raise (OSError "address lookup failed"),
       World.set_drawn S Example.w_unresolved).
Proof.
  assert (uuid4 Example.w_unresolved
          = (Ok "u", World.set_drawn S Example.w_unresolved)) as Hid
    by reflexivity.
  split; [exact Hid|].
  destruct (init_address_resolution 5555 None (Some "eth9") None 1%Q
              _ _ _ Hid) as [_ Hfail].
  apply Hfail. reflexivity.
Defined.

End ExtraRuns.

Section ConfigExtras.
Context {W : Type} `{Host W}.
Import ZeroMQConnector Statements.

(** X21. Spawn and close, in any world. When the first probe times out,
    the child process starts and the probe of [spawn_server] is answered,
    [__init__] builds a connector that keeps the handle of that process;
    its [close] terminates and joins exactly that process and then closes
    the socket and the context, and [close] with [kill_server=False] only
    closes the socket and the context. *)
Theorem spawned_server_is_closed_with_its_connector (p : Z)
    (a i : option string) (c : option Z) (t : Q)
    (w w1 w2 w3 w4 w5 w6 w7 : W) (id addr : string) (proc : Process) :
  uuid4 w = (Ok id, w1) ->
  resolve_address a i w1 = (Ok addr, w2) ->
  wait_for_server addr p t w2 = (Raise ServerTimeoutError, w3) ->
  process_start addr p (Some (default MAX_CHUNK_LENGTH_DEFAULT c)) w3
    = (Ok proc, w4) ->
  atexit_register proc (Some 1%Q) w4 = (Ok tt, w5) ->
  wait_for_server addr p t w5 = (Ok tt, w6) ->
  zmq_socket w6 = (Ok tt, w7) ->
  exists self,
    __init__ p a i c t w = (Ok self, w7) /\
    server self = Some proc /\
    (forall w',
       close self true w'
       = (process_terminate proc;; process_join proc;;
          sock_close;; context_term) w') /\
    (forall w', close self false w' = (sock_close;; context_term) w').
Proof.
  intros Hid Haddr Hprobe Hstart Hexit Hprobe' Hsock. eexists. split.
  - by apply (init_spawn _ _ _ _ _ _ _ _ _ _ _ _ _ _ _ _
                Hid Haddr Hprobe Hstart Hexit Hprobe' Hsock).
  - split; [reflexivity|]. split; intros w'.
    + unfold close. cbn [server]. unfold bind.
      by destruct (process_terminate proc w') as [[[]| |] w1'].
    + reflexivity.
Qed.

(** X22. The configuration of a constructed connector is made of the
    arguments it was constructed with: [address] and [interface] as they
    were given ([None] stays [None], the resolved address is not
    recorded), and [chunk_length] with its default filled in. *)
Theorem config_records_arguments (p : Z) (a i : option string)
    (c : option Z) (t : Q) (w w' : W) (self : ZeroMQConnector) :
  __init__ p a i c t w = (Ok self, w') ->
  config self
  = <["address" := from_option PyStr PyNone a]>
    (<["interface" := from_option PyStr PyNone i]>
    (<["port" := PyInt p]>
    (<["chunk_length" := PyInt (default MAX_CHUNK_LENGTH_DEFAULT c)]>
    (<["timeout" := PyFloat t]> ∅)))).
Proof.
  intros Hinit. apply init_fields in Hinit as (Ha & Hi & Hp & Hc & Ht).
  unfold config. by rewrite Ha, Hi, Hp, Hc, Ht.
Qed.

(** X23. [from_config] passes the entries of the configuration as keyword
    arguments: a configuration with a key that is no parameter of
    [__init__], or without [port], is refused with [TypeError] before
    anything is constructed, probed or spawned. *)
Theorem from_config_rejects_bad_keywords (config : gmap string pyval)
    (w : W) :
  (forall name,
     is_Some (config !! name) ->
     name ∉ ({["port"; "address"; "interface"; "chunk_length"; "timeout"]}
               : gset string) ->
     exists msg, from_config config w = (Raise (TypeError msg), w)) /\
  (config !! "port" = None ->
   exists msg, from_config config w = (Raise (TypeError msg), w)).
Proof.
  split.
  - intros name Hin Hnot. eexists. unfold from_config.
    rewrite bool_decide_eq_false_2; [reflexivity|].
    intros Hsub. apply Hnot, Hsub. by apply elem_of_dom.
  - intros Hport. unfold from_config.
    case_bool_decide as Hsub; cbn [negb]; [|by eexists].
    unfold keyword at 1. rewrite Hport.
    eexists. reflexivity.
Qed.

End ConfigExtras.

Section RequestExtras.
Import ZeroMQServer Statements.

(** X24. A request that carries no key does not bring the server down:
    each of the four handlers fails on the first attribute of the key it
    reads, and [handle_rpc] answers with that [AttributeError], the store
    being as it was. *)
Theorem request_without_key (rpc : RPC) (d : gmap string value) :
  key rpc = None ->
  (operation rpc = "exists" \/ operation rpc = "evict" \/
   operation rpc = "get" \/ (operation rpc = "put" /\ is_Some (data rpc))) ->
  handle_rpc rpc d
  = (Ok (failure rpc
           (AttributeError "NoneType"
              (if String.eqb (operation rpc) "exists" then "obj_id"
               else "stream_id"))), d).
Proof.
  intros Hk Hop. destruct rpc as [op k dat cid]. cbn in *. subst k.
  destruct Hop as [->|[->|[->|[-> [b ->]]]]]; by apply handle_rpc_raise.
Qed.

Lemma request_without_key_witness :
  handle_rpc (mkRPC "get" None None (Some "client")) Example.d_stream
  = (Ok (failure (mkRPC "get" None None (Some "client"))
                 (AttributeError "NoneType" "stream_id")),
     Example.d_stream).
Proof.
  apply (request_without_key (mkRPC "get" None None (Some "client"))
           Example.d_stream eq_refl).
  right. right. left. reflexivity.
Defined.

End RequestExtras.

Section ConfigRuns.
Import ZeroMQConnector Statements.

(** X22 on a run: the address comes from the interface, the configuration
    records no address. *)
Lemma config_records_arguments_witness :
  __init__ 5555 None (Some "eth0") None 1%Q Example.w0
    = (Ok (mkZeroMQConnector None (Some "eth0") "u" 5555 65536 1%Q
                             "10.0.0.1" None),
       World.set_drawn S Example.w0) /\
  config (mkZeroMQConnector None (Some "eth0") "u" 5555 65536 1%Q
                            "10.0.0.1" None) !! "address" = Some PyNone.
Proof.
  assert (__init__ 5555 None (Some "eth0") None 1%Q Example.w0
          = (Ok (mkZeroMQConnector None (Some "eth0") "u" 5555 65536 1%Q
                                   "10.0.0.1" None),
             World.set_drawn S Example.w0)) as Hinit by reflexivity.
  split; [exact Hinit|].
  rewrite (config_records_arguments _ _ _ _ _ _ _ _ Hinit). reflexivity.
Defined.

(** X23 on a run: a configuration with a stray key, and one without port. *)
Lemma from_config_rejects_bad_keywords_witness :
  (exists msg,
     from_config (<["host" := PyStr "10.0.0.1"]> (config Example.c0))
                 Example.w0 = (Raise (TypeError msg), Example.w0)) /\
  (exists msg,
     from_config (delete "port" (config Example.c0)) Example.w0
     = (Raise (TypeError msg), Example.w0)).
Proof.
  split.
  - destruct (from_config_rejects_bad_keywords
                (<["host" := PyStr "10.0.0.1"]> (config Example.c0))
                Example.w0) as [Hstray _].
    apply (Hstray "host").
    + rewrite lookup_insert_eq. by eexists.
    + apply (bool_decide_unpack _). vm_compute. exact I.
  - destruct (from_config_rejects_bad_keywords
                (delete "port" (config Example.c0)) Example.w0)
      as [_ Hport].
    apply Hport. apply lookup_delete_eq.
Defined.

(** X21 on a run: nothing listens on port 6000, the connector spawns its
    server there, and its [close] takes the server down again. *)
Lemma spawned_server_is_closed_with_its_connector_witness :
  exists self w1,
    __init__ 6000 (Some "10.0.0.1") None None 1%Q Example.w0
      = (Ok self, w1) /\
    server self = Some (fresh (dom (processes Example.w0))) /\
    servers w1 !! ("10.0.0.1", 6000)
      = Some (Serving ZeroMQServer.__init__) /\
    servers (close self true w1).2 !! ("10.0.0.1", 6000) = None /\
    servers (close self false w1).2 !! ("10.0.0.1", 6000)
      = Some (Serving ZeroMQServer.__init__).
Proof.
  set (pid := fresh (dom (processes Example.w0))).
  set (w1 := World.set_drawn S Example.w0).
  set (w2 := World.set_processes (insert pid (Some ("10.0.0.1", 6000)))
               (World.set_servers
                  (insert ("10.0.0.1", 6000) (Serving ZeroMQServer.__init__))
                  w1)).
  assert (uuid4 Example.w0 = (Ok "u", w1)) as Hid by reflexivity.
  assert (resolve_address (Some "10.0.0.1") None w1 = (Ok "10.0.0.1", w1))
    as Haddr by reflexivity.
  assert (wait_for_server "10.0.0.1" 6000 1%Q w1
          = (Raise ServerTimeoutError, w1)) as Hprobe by reflexivity.
  assert (process_start "10.0.0.1" 6000
            (Some (default MAX_CHUNK_LENGTH_DEFAULT None)) w1
          = (Ok pid, w2)) as Hstart by reflexivity.
  assert (atexit_register pid (Some 1%Q) w2 = (Ok tt, w2)) as Hexit
    by reflexivity.
  assert (wait_for_server "10.0.0.1" 6000 1%Q w2 = (Ok tt, w2)) as Hprobe'
    by reflexivity.
  assert (zmq_socket w2 = (Ok tt, w2)) as Hsock by reflexivity.
  destruct (spawned_server_is_closed_with_its_connector 6000
              (Some "10.0.0.1") None None 1%Q _ _ _ _ _ _ _ _ _ _ _
              Hid Haddr Hprobe Hstart Hexit Hprobe' Hsock)
    as (self & Hinit & Hsrv & Hkill & Hkeep).
  exists self, w2. split; [exact Hinit|]. split; [exact Hsrv|].
  split; [reflexivity|]. rewrite Hkill, Hkeep. split; reflexivity.
Defined.

End ConfigRuns.


(** * Batches on plain keys and on streams *)

Section BatchStreams.
Import ZeroMQConnector Statements.

Implicit Types (w : World) (d : gmap string value) (k : DIMKey).



Lemma store_all_agree (kos : list (DIMKey * bytes)) d1 d2 (sid i : string) :
  (forall j, j <> sid -> d1 !! j = d2 !! j) ->
  i <> sid ->
  store_all kos d1 !! i = store_all kos d2 !! i.
Proof.
  revert d1 d2. induction kos as [|[k b] kos IH]; intros d1 d2 Hagree Hi.
  - by apply Hagree.
  - rewrite !store_all_cons. apply IH; [|done].
    intros j Hj. cbn. destruct (decide (j = obj_id k)) as [->|Hne].
    + by rewrite !lookup_insert_eq.
    + rewrite !lookup_insert_ne by done. by apply Hagree.
Qed.





End BatchStreams.

Section BatchClaims.
Import ZeroMQConnector Statements.

Implicit Types (w : World) (d : gmap string value) (k : DIMKey).






End BatchClaims.

Section BatchRuns.
Import ZeroMQConnector Statements.



End BatchRuns.
